(** * Grbl_Esp32 native GPIO pin backing: [Pins::GPIOPinDetail]

    A shallow embedding of [Grbl_Esp32/src/Pins/GPIOPinDetail.cpp] and the
    properties of its capability table, constructor, [setAttr], [write],
    [read] and interrupt binding. *)

From Stdlib Require Import ZArith Lia.
From stdpp Require Import base decidable countable gmap sets list strings pretty.

Open Scope Z_scope.

(** ** Flag sets

    [PinCapabilities] and [PinAttributes] are bit-flag classes declared in
    headers that are not part of the translated sources.  The capability
    table and the pin code only combine named flags with [|] and query them
    with [has], so a flag set is modelled as a finite set of flag names. *)

Inductive Flag : Set :=
  | FNative | FInput | FOutput | FPullUp | FPullDown
  | FADC | FDAC | FPWM | FISR | FUART
  | FActiveLow | FInitialOn.

#[global] Instance Flag_eq_dec : EqDecision Flag.
Proof. solve_decision. Defined.

Definition Flag_to_nat (f : Flag) : nat :=
  match f with
  | FNative => 0 | FInput => 1 | FOutput => 2 | FPullUp => 3 | FPullDown => 4
  | FADC => 5 | FDAC => 6 | FPWM => 7 | FISR => 8 | FUART => 9
  | FActiveLow => 10 | FInitialOn => 11
  end%nat.

Definition Flag_of_nat (n : nat) : option Flag :=
  match n with
  | 0 => Some FNative | 1 => Some FInput | 2 => Some FOutput
  | 3 => Some FPullUp | 4 => Some FPullDown | 5 => Some FADC
  | 6 => Some FDAC | 7 => Some FPWM | 8 => Some FISR | 9 => Some FUART
  | 10 => Some FActiveLow | 11 => Some FInitialOn
  | _ => None
  end%nat.

#[global] Instance Flag_countable : Countable Flag.
Proof.
  refine (inj_countable Flag_to_nat Flag_of_nat _).
  intros []; reflexivity.
Defined.

Module PinCapabilities.
(** Modelled from the spec: the header [PinCapabilities.h] is missing.  The
    spec describes a set of independent feature flags, [None] meaning that
    there is no usable physical pin at the index. *)
Definition t : Type := gset Flag.
Definition Native : t := {[ FNative ]}.
Definition Input : t := {[ FInput ]}.
Definition Output : t := {[ FOutput ]}.
Definition PullUp : t := {[ FPullUp ]}.
Definition PullDown : t := {[ FPullDown ]}.
Definition ADC : t := {[ FADC ]}.
Definition DAC : t := {[ FDAC ]}.
Definition PWM : t := {[ FPWM ]}.
Definition ISR : t := {[ FISR ]}.
Definition UART : t := {[ FUART ]}.
Definition None : t := ∅.
End PinCapabilities.

Module PinAttributes.
(** Modelled from the spec: the header [PinAttributes.h] is missing.  The
    spec describes a set of usage-intent flags, [None] being the empty
    set. *)
Definition t : Type := gset Flag.
Definition Input : t := {[ FInput ]}.
Definition Output : t := {[ FOutput ]}.
Definition PullUp : t := {[ FPullUp ]}.
Definition PullDown : t := {[ FPullDown ]}.
Definition ISR : t := {[ FISR ]}.
Definition ActiveLow : t := {[ FActiveLow ]}.
Definition InitialOn : t := {[ FInitialOn ]}.
(** Modelled from the spec: [has] of the missing class; the set includes
    the queried attribute. *)
Definition has (this attr : t) : bool := bool_decide (attr ⊆ this).
(** Modelled from the spec: [validateWith] of the missing class; every
    requested flag is present in the capabilities. *)
Definition validateWith (this : t) (caps : PinCapabilities.t) : bool :=
  bool_decide (this ⊆ caps).
Definition None : t := ∅.
End PinAttributes.

(** Both flags of a pair are present. *)
Definition exclusive_pair (a b : Flag) (s : gset Flag) : bool :=
  bool_decide (a ∈ s) && bool_decide (b ∈ s).

(** Modelled from the spec: [conflictsWith] of the missing [PinAttributes]
    class.  The spec fixes two mutually exclusive pairs, Input/Output and
    PullUp/PullDown: the requested set conflicts with the accumulated one
    when both flags of a pair are present between them. *)
Definition conflictsWith_spec (this requested : PinAttributes.t) : bool :=
  exclusive_pair FInput FOutput (this ∪ requested)
  || exclusive_pair FPullUp FPullDown (this ∪ requested).

(** ** Platform constants and primitives

    [Arduino.h] belongs to the ESP32 Arduino core, not to this repository;
    these are its values. *)
Definition LOW : Z := 0.
Definition HIGH : Z := 1.
Definition INPUT : Z := 1.
Definition OUTPUT : Z := 2.
Definition PULLUP : Z := 4.
Definition PULLDOWN : Z := 8.

(** Implicit conversion of an [int] argument to a [uint8_t] parameter. *)
Definition uint8 (v : Z) : Z := v mod 256.

(** The hardware the pin code talks to: for each pin number the level last
    handed to [__digitalWrite], the mode last handed to [__pinMode], and the
    (callback, argument, trigger mode) bound by [attachInterruptArg]. *)
Record Hardware : Type := mkHardware {
  levels : gmap Z Z;
  modes : gmap Z Z;
  interrupts : gmap Z (Z * Z * Z)
}.

Definition hw_digitalWrite (pin val : Z) (h : Hardware) : Hardware :=
  {| levels := <[pin := val]> (levels h);
     modes := modes h;
     interrupts := interrupts h |}.

Definition hw_digitalRead (pin : Z) (h : Hardware) : Z :=
  default LOW (levels h !! pin).

Definition hw_pinMode (pin mode : Z) (h : Hardware) : Hardware :=
  {| levels := levels h;
     modes := <[pin := mode]> (modes h);
     interrupts := interrupts h |}.

Definition hw_attachInterruptArg (pin callback arg mode : Z) (h : Hardware) : Hardware :=
  {| levels := levels h;
     modes := modes h;
     interrupts := <[pin := (callback, arg, mode)]> (interrupts h) |}.

Definition hw_detachInterrupt (pin : Z) (h : Hardware) : Hardware :=
  {| levels := levels h;
     modes := modes h;
     interrupts := delete pin (interrupts h) |}.

Definition hw_empty : Hardware :=
  {| levels := ∅; modes := ∅; interrupts := ∅ |}.

(** ** Assertion failures *)

(** Modelled from the spec: [Assert.h] is missing.  A failed [Assert]
    reports a message; the format string and its arguments are kept
    apart. *)
Inductive FormatArg : Type :=
  | ArgInt (n : Z)
  | ArgStr (s : string).

Record AssertionFailed : Type := mkAssertionFailed {
  msg : string;
  args : list FormatArg
}.

Inductive Result (A : Type) : Type :=
  | Ok (a : A)
  | Throw (e : AssertionFailed).
Arguments Ok {A} a.
Arguments Throw {A} e.

Module Pins.

(** [PinCapabilities GPIOPinDetail::GetDefaultCapabilities(uint8_t index)] *)
Definition GetDefaultCapabilities (index : Z) : PinCapabilities.t :=
  match index with
  | 0 =>
      PinCapabilities.Native ∪ PinCapabilities.Input ∪ PinCapabilities.Output ∪
      PinCapabilities.PullUp ∪ PinCapabilities.PullDown ∪ PinCapabilities.ADC ∪
      PinCapabilities.PWM ∪ PinCapabilities.ISR ∪ PinCapabilities.UART
  | 1 =>
      PinCapabilities.Native ∪ PinCapabilities.Output ∪ PinCapabilities.Input ∪
      PinCapabilities.UART
  | 3 =>
      PinCapabilities.Native ∪ PinCapabilities.Output ∪ PinCapabilities.Input ∪
      PinCapabilities.ISR ∪ PinCapabilities.UART
  | 5 | 16 | 17 | 18 | 19 | 21 | 22 | 23 | 29 =>
      PinCapabilities.Native ∪ PinCapabilities.Input ∪ PinCapabilities.Output ∪
      PinCapabilities.PullUp ∪ PinCapabilities.PullDown ∪ PinCapabilities.PWM ∪
      PinCapabilities.ISR ∪ PinCapabilities.UART
  | 2 | 4 | 12 | 13 | 14 | 15 | 27 | 32 | 33 =>
      PinCapabilities.Native ∪ PinCapabilities.Input ∪ PinCapabilities.Output ∪
      PinCapabilities.PullUp ∪ PinCapabilities.PullDown ∪ PinCapabilities.ADC ∪
      PinCapabilities.PWM ∪ PinCapabilities.ISR ∪ PinCapabilities.UART
  | 25 | 26 =>
      PinCapabilities.Native ∪ PinCapabilities.Input ∪ PinCapabilities.Output ∪
      PinCapabilities.PullUp ∪ PinCapabilities.PullDown ∪ PinCapabilities.ADC ∪
      PinCapabilities.DAC ∪ PinCapabilities.PWM ∪ PinCapabilities.ISR ∪
      PinCapabilities.UART
  | 6 | 7 | 8 | 9 | 10 | 11 =>
      PinCapabilities.Native ∪ PinCapabilities.Input ∪ PinCapabilities.Output ∪
      PinCapabilities.PWM ∪ PinCapabilities.ISR ∪ PinCapabilities.UART
  | 34 | 35 | 36 | 39 =>
      PinCapabilities.Native ∪ PinCapabilities.Input ∪ PinCapabilities.ADC ∪
      PinCapabilities.ISR ∪ PinCapabilities.UART
  | _ => PinCapabilities.None
  end.


(** Fields of [class GPIOPinDetail]. *)
Record GPIOPinDetail : Type := mkGPIOPinDetail {
  _index : Z;
  _capabilities : PinCapabilities.t;
  _attributes : PinAttributes.t;
  _currentMode : PinAttributes.t;
  _readWriteMask : Z
}.

(** A member function runs on the object and the hardware; a failed
    assertion leaves both as they were when it was raised. *)
Record State : Type := mkState {
  this : GPIOPinDetail;
  hw : Hardware
}.

Definition M (A : Type) : Type := State -> Result A * State.

Definition ret {A} (a : A) : M A := fun s => (Ok a, s).

Definition bind {A B} (m : M A) (k : A -> M B) : M B :=
  fun s =>
    match m s with
    | (Ok a, s') => k a s'
    | (Throw e, s') => (Throw e, s')
    end.

Notation "x <- m ;; k" := (bind m (fun x => k))
  (at level 100, m at next level, right associativity).
Notation "m ;; k" := (bind m (fun _ => k))
  (at level 100, right associativity).

(** Modelled from the spec: the [Assert] macro of the missing [Assert.h].
    When the condition is false the running operation stops there with the
    message. *)
Definition Assert (cond : bool) (message : string) (fargs : list FormatArg) : M unit :=
  fun s => if cond then (Ok tt, s) else (Throw (mkAssertionFailed message fargs), s).

Definition self : M GPIOPinDetail := fun s => (Ok (this s), s).

(** Assignment to one field of the object. *)
Definition with_attributes (a : PinAttributes.t) (p : GPIOPinDetail) : GPIOPinDetail :=
  {| _index := _index p;
     _capabilities := _capabilities p;
     _attributes := a;
     _currentMode := _currentMode p;
     _readWriteMask := _readWriteMask p |}.

Definition with_currentMode (a : PinAttributes.t) (p : GPIOPinDetail) : GPIOPinDetail :=
  {| _index := _index p;
     _capabilities := _capabilities p;
     _attributes := _attributes p;
     _currentMode := a;
     _readWriteMask := _readWriteMask p |}.

Definition with_readWriteMask (m : Z) (p : GPIOPinDetail) : GPIOPinDetail :=
  {| _index := _index p;
     _capabilities := _capabilities p;
     _attributes := _attributes p;
     _currentMode := _currentMode p;
     _readWriteMask := m |}.

Definition set_attributes (a : PinAttributes.t) : M unit :=
  fun s => (Ok tt, {| this := with_attributes a (this s); hw := hw s |}).

Definition set_currentMode (a : PinAttributes.t) : M unit :=
  fun s => (Ok tt, {| this := with_currentMode a (this s); hw := hw s |}).

Definition set_readWriteMask (m : Z) : M unit :=
  fun s => (Ok tt, {| this := with_readWriteMask m (this s); hw := hw s |}).

Definition __digitalWrite (pin val : Z) : M unit :=
  fun s => (Ok tt, {| this := this s; hw := hw_digitalWrite pin val (hw s) |}).

Definition __digitalRead (pin : Z) : M Z :=
  fun s => (Ok (hw_digitalRead pin (hw s)), s).

Definition __pinMode (pin mode : Z) : M unit :=
  fun s => (Ok tt, {| this := this s; hw := hw_pinMode pin mode (hw s) |}).

Definition attachInterruptArg (pin callback arg mode : Z) : M unit :=
  fun s =>
    (Ok tt, {| this := this s; hw := hw_attachInterruptArg pin callback arg mode (hw s) |}).

Definition global_detachInterrupt (pin : Z) : M unit :=
  fun s => (Ok tt, {| this := this s; hw := hw_detachInterrupt pin (hw s) |}).

(** Modelled from the spec: [PinOptionsParser] is missing.  It enumerates
    the tokens of the configuration string in order; a token offers an
    exact-match test ([opt.is(name)]) and its raw text ([opt()]). *)
Definition opt_is (opt name : string) : bool := String.eqb opt name.

Fixpoint for_each {A} (body : A -> M unit) (l : list A) : M unit :=
  match l with
  | [] => ret tt
  | x :: l' => body x ;; for_each body l'
  end.


(** ** The constructor

    [GPIOPinDetail::GPIOPinDetail(uint8_t index, PinOptionsParser options)] *)

(** One turn of the loop over the options. *)
Definition fold_option (index : Z) (opt : string) : M unit :=
  p <- self ;;
  if opt_is opt "pu" then
    set_attributes (_attributes p ∪ PinAttributes.PullUp)
  else if opt_is opt "pd" then
    set_attributes (_attributes p ∪ PinAttributes.PullDown)
  else if opt_is opt "low" then
    set_attributes (_attributes p ∪ PinAttributes.ActiveLow)
  else if opt_is opt "high" then
    ret tt
  else
    Assert false "Bad GPIO option passed to pin %d: %s" [ArgInt index; ArgStr opt].

Definition ctor_body (index : Z) (options : list string) : M unit :=
  p <- self ;;
  Assert (bool_decide (_capabilities p ≠ PinCapabilities.None)) "Bad GPIO number" [] ;;
  for_each (fold_option index) options ;;
  p <- self ;;
  if PinAttributes.has (_attributes p) PinAttributes.ActiveLow then
    set_readWriteMask HIGH
  else
    set_readWriteMask LOW.

(** The member initialisers, then the body.  When the body throws there is
    no object: only the failure and the hardware come back. *)
Definition new_GPIOPinDetail (index : Z) (options : list string) (h : Hardware)
  : Result GPIOPinDetail * Hardware :=
  let init :=
    {| _index := index;
       _capabilities := GetDefaultCapabilities index;
       _attributes := PinAttributes.None;
       _currentMode := PinAttributes.None;
       _readWriteMask := 0 |} in
  match ctor_body index options {| this := init; hw := h |} with
  | (Ok _, s) => (Ok (this s), hw s)
  | (Throw e, s) => (Throw e, hw s)
  end.

(** ** Member functions *)

Definition capabilities : M PinCapabilities.t :=
  p <- self ;; ret (_capabilities p).

Definition attributes : M PinAttributes.t :=
  p <- self ;; ret (_attributes p).

Definition write (high : Z) : M unit :=
  p <- self ;;
  Assert (PinAttributes.has (_currentMode p) PinAttributes.Output)
         "Pin has no output attribute defined. Cannot write to it." [] ;;
  let value := Z.lxor (_readWriteMask p) high in
  __digitalWrite (_index p) (uint8 value).

Definition read : M Z :=
  p <- self ;;
  raw <- __digitalRead (_index p) ;;
  ret (Z.lxor raw (_readWriteMask p)).

Definition attachInterrupt (callback arg mode : Z) : M unit :=
  p <- self ;;
  Assert (PinAttributes.has (_currentMode p) PinAttributes.ISR)
         "Pin has no ISR attribute, which means 'setAttr' was not set, or the pin doesn't support ISR's. Cannot bind ISR." [] ;;
  attachInterruptArg (_index p) callback arg mode.

Definition detachInterrupt : M unit :=
  p <- self ;;
  Assert (PinAttributes.has (_currentMode p) PinAttributes.ISR)
         "Pin has no ISR attribute, which means 'setAttr' was not set, or the pin doesn't support ISR's. Cannot unbind ISR." [] ;;
  global_detachInterrupt (_index p).

(** [String("GPIO.") + int(_index)]: the index is appended in decimal. *)
Definition toString : M string :=
  p <- self ;; ret ("GPIO." +:+ pretty (_index p)).

Section SetAttr.

(** [PinAttributes::conflictsWith] is declared in a missing header; the
    pin code is embedded for an arbitrary conflict test. *)
Variable conflictsWith : PinAttributes.t -> PinAttributes.t -> bool.

Definition setAttr (value : PinAttributes.t) : M unit :=
  p <- self ;;
  Assert (PinAttributes.validateWith value (_capabilities p)
          || (_index p =? 1) || (_index p =? 3))
         "The requested attributes don't match the pin capabilities" [] ;;
  Assert (negb (conflictsWith (_attributes p) value)
          || (_index p =? 1) || (_index p =? 3))
         "Attributes on this pin have been set before, and there's a conflict." [] ;;
  set_currentMode value ;;
  let pinModeValue := 0 in
  let pinModeValue :=
    if PinAttributes.has value PinAttributes.Input then Z.lor pinModeValue INPUT
    else if PinAttributes.has value PinAttributes.Output then Z.lor pinModeValue OUTPUT
    else pinModeValue in
  let pinModeValue :=
    if PinAttributes.has (_attributes p) PinAttributes.PullUp
       || PinAttributes.has value PinAttributes.PullUp
    then Z.lor pinModeValue PULLUP
    else if PinAttributes.has (_attributes p) PinAttributes.PullDown
            || PinAttributes.has value PinAttributes.PullDown
    then Z.lor pinModeValue PULLDOWN
    else pinModeValue in
  (if PinAttributes.has value PinAttributes.Output then
     if PinAttributes.has value PinAttributes.InitialOn then
       __digitalWrite (_index p) (uint8 (Z.lxor HIGH (_readWriteMask p)))
     else
       __digitalWrite (_index p) (uint8 (Z.lxor LOW (_readWriteMask p)))
   else ret tt) ;;
  __pinMode (_index p) pinModeValue.

(** The calls a client can make on a pin, and the state each leaves
    behind whether it returns or throws. *)
Inductive Call : Type :=
  | CallSetAttr (value : PinAttributes.t)
  | CallWrite (high : Z)
  | CallRead
  | CallAttachInterrupt (callback arg mode : Z)
  | CallDetachInterrupt.

Definition exec (c : Call) (s : State) : State :=
  match c with
  | CallSetAttr value => snd (setAttr value s)
  | CallWrite high => snd (write high s)
  | CallRead => snd (read s)
  | CallAttachInterrupt callback arg mode => snd (attachInterrupt callback arg mode s)
  | CallDetachInterrupt => snd (detachInterrupt s)
  end.

(** Pin objects a program can hold: built by the constructor, then used
    through any sequence of calls, on whatever the hardware is by then. *)
Inductive reachable : GPIOPinDetail -> Prop :=
  | reachable_new index options h p h' :
      new_GPIOPinDetail index options h = (Ok p, h') ->
      reachable p
  | reachable_call c p h :
      reachable p ->
      reachable (this (exec c {| this := p; hw := h |})).

End SetAttr.

End Pins.

Import Pins.

(** ** The option tokens as the spec words them *)

(** What one recognised token adds to the accumulated attributes. *)
Definition token_attribute (opt : string) : option PinAttributes.t :=
  if decide (opt = "pu") then Some PinAttributes.PullUp
  else if decide (opt = "pd") then Some PinAttributes.PullDown
  else if decide (opt = "low") then Some PinAttributes.ActiveLow
  else if decide (opt = "high") then Some PinAttributes.None
  else None.

(** All-or-nothing fold: the accumulated attributes, or the first token
    that is not recognised. *)
Fixpoint fold_tokens (acc : PinAttributes.t) (options : list string)
  : PinAttributes.t + string :=
  match options with
  | [] => inl acc
  | opt :: rest =>
      match token_attribute opt with
      | Some a => fold_tokens (acc ∪ a) rest
      | None => inr opt
      end
  end.

(** The switch labels of [GetDefaultCapabilities]. *)
Definition mapped_indices : list Z :=
  [0; 1; 3; 5; 16; 17; 18; 19; 21; 22; 23; 29;
   2; 4; 12; 13; 14; 15; 27; 32; 33; 25; 26;
   6; 7; 8; 9; 10; 11; 34; 35; 36; 39].

Definition mapped (index : Z) : bool := bool_decide (index ∈ mapped_indices).

(** The failures the pin code can raise. *)
Definition bad_gpio_number : AssertionFailed :=
  mkAssertionFailed "Bad GPIO number" [].

Definition bad_gpio_option (index : Z) (opt : string) : AssertionFailed :=
  mkAssertionFailed "Bad GPIO option passed to pin %d: %s" [ArgInt index; ArgStr opt].

Definition no_output_attribute : AssertionFailed :=
  mkAssertionFailed "Pin has no output attribute defined. Cannot write to it." [].

Definition capability_mismatch : AssertionFailed :=
  mkAssertionFailed "The requested attributes don't match the pin capabilities" [].

Definition attribute_conflict : AssertionFailed :=
  mkAssertionFailed "Attributes on this pin have been set before, and there's a conflict." [].

Definition no_isr_bind : AssertionFailed :=
  mkAssertionFailed "Pin has no ISR attribute, which means 'setAttr' was not set, or the pin doesn't support ISR's. Cannot bind ISR." [].

Definition no_isr_unbind : AssertionFailed :=
  mkAssertionFailed "Pin has no ISR attribute, which means 'setAttr' was not set, or the pin doesn't support ISR's. Cannot unbind ISR." [].

(** What construction establishes and every call keeps: the capabilities
    are the table's entry for the index, and the mask follows ActiveLow. *)
Definition well_formed (p : GPIOPinDetail) : Prop :=
  _capabilities p = GetDefaultCapabilities (_index p)
  /\ _readWriteMask p =
       if PinAttributes.has (_attributes p) PinAttributes.ActiveLow then HIGH else LOW.

(** The level [setAttr] gives an output pin: logical 1 with InitialOn,
    logical 0 without. *)
Definition initial_level (value : PinAttributes.t) : Z :=
  if PinAttributes.has value PinAttributes.InitialOn then HIGH else LOW.

(** The tokens the constructor recognises. *)
Definition recognised_tokens : list string := ["pu"; "pd"; "low"; "high"].

(** ** [Machines/servo_axis.h]

    The pin assignments of the Buildlog.net pen laser controller.
    [GPIO_NUM_n] is the ESP-IDF name of pin number n.  The header selects
    the board with [#define PEN_LASER_V2]; [X_LIMIT_PIN] depends on it. *)
Module servo_axis.

Inductive BoardVersion : Set :=
  | PEN_LASER_V1
  | PEN_LASER_V2.

Definition board : BoardVersion := PEN_LASER_V2.

Definition X_STEP_PIN : Z := 12.
Definition X_DIRECTION_PIN : Z := 26.
Definition STEPPERS_DISABLE_PIN : Z := 13.

Definition X_LIMIT_PIN (v : BoardVersion) : Z :=
  match v with
  | PEN_LASER_V1 => 2
  | PEN_LASER_V2 => 15
  end.

Definition Y_LIMIT_PIN : Z := 4.
Definition SPINDLE_PWM_PIN : Z := 17.
Definition SERVO_Y_PIN : Z := 14.
Definition SERVO_Y_CHANNEL_NUM : Z := 6.
Definition SERVO_Z_PIN : Z := 27.
Definition SERVO_Z_CHANNEL_NUM : Z := 5.

(** The pins the firmware drives, and the pins it listens on. *)
Definition driven_pins : list Z :=
  [X_STEP_PIN; X_DIRECTION_PIN; STEPPERS_DISABLE_PIN;
   SPINDLE_PWM_PIN; SERVO_Y_PIN; SERVO_Z_PIN].

Definition limit_pins (v : BoardVersion) : list Z :=
  [X_LIMIT_PIN v; Y_LIMIT_PIN].

End servo_axis.

(** ** Flag queries *)

Lemma has_true (s a : PinAttributes.t) : PinAttributes.has s a = true <-> a ⊆ s.
Proof. unfold PinAttributes.has. apply bool_decide_eq_true. Qed.

Lemma has_false (s a : PinAttributes.t) : PinAttributes.has s a = false <-> ¬ a ⊆ s.
Proof. unfold PinAttributes.has. apply bool_decide_eq_false. Qed.

Lemma validateWith_true (a : PinAttributes.t) (caps : PinCapabilities.t) :
  PinAttributes.validateWith a caps = true <-> a ⊆ caps.
Proof. unfold PinAttributes.validateWith. apply bool_decide_eq_true. Qed.

Lemma validateWith_false (a : PinAttributes.t) (caps : PinCapabilities.t) :
  PinAttributes.validateWith a caps = false <-> ¬ a ⊆ caps.
Proof. unfold PinAttributes.validateWith. apply bool_decide_eq_false. Qed.

(** ** The capability table *)

Lemma unmapped_no_capabilities (index : Z) :
  mapped index = false -> GetDefaultCapabilities index = PinCapabilities.None.
Proof.
  intros Hm.
  destruct index as [|q|q]; [discriminate Hm| |reflexivity].
  do 6 (try destruct q as [q|q|]); try reflexivity; discriminate Hm.
Qed.

Lemma mapped_has_capabilities (index : Z) :
  mapped index = true -> GetDefaultCapabilities index ≠ PinCapabilities.None.
Proof.
  unfold mapped. rewrite bool_decide_eq_true. unfold mapped_indices.
  rewrite !elem_of_cons, elem_of_nil.
  intros H.
  assert (Hn : FNative ∈ GetDefaultCapabilities index).
  { repeat (destruct H as [-> | H]; [vm_compute; reflexivity|]). destruct H. }
  intros Heq. rewrite Heq in Hn. unfold PinCapabilities.None in Hn. set_solver.
Qed.

(** ** The constructor *)

Lemma with_attributes_same (p : GPIOPinDetail) : with_attributes (_attributes p) p = p.
Proof. destruct p; reflexivity. Qed.

Lemma opt_is_decide (opt name : string) :
  opt_is opt name = bool_decide (opt = name).
Proof.
  unfold opt_is. destruct (String.eqb_spec opt name) as [->|Hne].
  - symmetry. apply bool_decide_eq_true. reflexivity.
  - symmetry. apply bool_decide_eq_false. exact Hne.
Qed.

Lemma fold_option_spec (index : Z) (opt : string) (p : GPIOPinDetail) (h : Hardware) :
  fold_option index opt (mkState p h) =
  match token_attribute opt with
  | Some a => (Ok tt, mkState (with_attributes (_attributes p ∪ a) p) h)
  | None => (Throw (bad_gpio_option index opt), mkState p h)
  end.
Proof.
  unfold fold_option, token_attribute, bind, self. simpl.
  rewrite !opt_is_decide.
  destruct (decide (opt = "pu")) as [->|H1]; [reflexivity|].
  rewrite (bool_decide_eq_false_2 _ H1).
  destruct (decide (opt = "pd")) as [->|H2]; [reflexivity|].
  rewrite (bool_decide_eq_false_2 _ H2).
  destruct (decide (opt = "low")) as [->|H3]; [reflexivity|].
  rewrite (bool_decide_eq_false_2 _ H3).
  destruct (decide (opt = "high")) as [->|H4].
  - unfold ret, PinAttributes.None. simpl. rewrite (right_id_L ∅ (∪)).
    rewrite with_attributes_same. reflexivity.
  - rewrite (bool_decide_eq_false_2 _ H4). reflexivity.
Qed.

Lemma for_each_fold_option (index : Z) (options : list string) :
  forall (p : GPIOPinDetail) (h : Hardware),
    exists p',
      for_each (fold_option index) options (mkState p h) =
        (match fold_tokens (_attributes p) options with
         | inl _ => Ok tt
         | inr bad => Throw (bad_gpio_option index bad)
         end, mkState p' h)
      /\ (forall a, fold_tokens (_attributes p) options = inl a ->
                    p' = with_attributes a p).
Proof.
  induction options as [|opt rest IH]; intros p h.
  - exists p. split; [reflexivity|].
    simpl. intros a [= <-]. symmetry. apply with_attributes_same.
  - simpl. unfold bind. rewrite fold_option_spec.
    destruct (token_attribute opt) as [a|].
    + destruct (IH (with_attributes (_attributes p ∪ a) p) h) as (p' & Hrun & Hp').
      simpl in Hrun, Hp'. exists p'. split; [exact Hrun|].
      intros b Hb. rewrite (Hp' b Hb). reflexivity.
    + exists p. split; [reflexivity|]. intros a [=].
Qed.

Lemma new_GPIOPinDetail_spec (index : Z) (options : list string) (h : Hardware) :
  new_GPIOPinDetail index options h =
  if mapped index then
    match fold_tokens PinAttributes.None options with
    | inl a =>
        (Ok {| _index := index;
               _capabilities := GetDefaultCapabilities index;
               _attributes := a;
               _currentMode := PinAttributes.None;
               _readWriteMask :=
                 if PinAttributes.has a PinAttributes.ActiveLow then HIGH else LOW |},
         h)
    | inr bad => (Throw (bad_gpio_option index bad), h)
    end
  else (Throw bad_gpio_number, h).
Proof.
  unfold new_GPIOPinDetail, ctor_body, bind, self, Assert. simpl.
  destruct (mapped index) eqn:Hm.
  - rewrite (bool_decide_eq_true_2 _ (mapped_has_capabilities _ Hm)).
    set (init := mkGPIOPinDetail _ _ _ _ _).
    destruct (for_each_fold_option index options init h) as (p' & Hrun & Hp').
    rewrite Hrun. simpl in *.
    destruct (fold_tokens PinAttributes.None options) as [a|bad]; [|reflexivity].
    rewrite (Hp' a eq_refl). simpl.
    destruct (PinAttributes.has a PinAttributes.ActiveLow); reflexivity.
  - rewrite (unmapped_no_capabilities _ Hm).
    rewrite bool_decide_eq_false_2 by (intros Hne; apply Hne; reflexivity).
    reflexivity.
Qed.

(** ** Member functions *)

Lemma with_currentMode_same (p : GPIOPinDetail) : with_currentMode (_currentMode p) p = p.
Proof. destruct p; reflexivity. Qed.

(** Run a member function on an explicit state. *)
Ltac run_member :=
  unfold setAttr, write, read, attachInterrupt, detachInterrupt,
    bind, self, Assert; simpl.

Section Calls.

Variable conflictsWith : PinAttributes.t -> PinAttributes.t -> bool.

Lemma setAttr_capability_fail value p h :
  PinAttributes.validateWith value (_capabilities p)
    || (_index p =? 1) || (_index p =? 3) = false ->
  setAttr conflictsWith value (mkState p h) = (Throw capability_mismatch, mkState p h).
Proof.
  intros H. run_member. rewrite H. reflexivity.
Qed.

Lemma setAttr_conflict_fail value p h :
  PinAttributes.validateWith value (_capabilities p)
    || (_index p =? 1) || (_index p =? 3) = true ->
  negb (conflictsWith (_attributes p) value)
    || (_index p =? 1) || (_index p =? 3) = false ->
  setAttr conflictsWith value (mkState p h) = (Throw attribute_conflict, mkState p h).
Proof.
  intros H1 H2. run_member. rewrite H1, H2. reflexivity.
Qed.

Lemma setAttr_ok value p h :
  PinAttributes.validateWith value (_capabilities p)
    || (_index p =? 1) || (_index p =? 3) = true ->
  negb (conflictsWith (_attributes p) value)
    || (_index p =? 1) || (_index p =? 3) = true ->
  exists h',
    setAttr conflictsWith value (mkState p h) =
      (Ok tt, mkState (with_currentMode value p) h')
    /\ levels h' =
         (if PinAttributes.has value PinAttributes.Output
          then <[_index p := uint8 (Z.lxor (initial_level value) (_readWriteMask p))]> (levels h)
          else levels h)
    /\ interrupts h' = interrupts h.
Proof.
  intros H1 H2. unfold initial_level. run_member.
  rewrite H1, H2. simpl.
  destruct (PinAttributes.has value PinAttributes.Output);
    [destruct (PinAttributes.has value PinAttributes.InitialOn)|];
    simpl; eexists; (split; [reflexivity|]); split; reflexivity.
Qed.

(** Every outcome of [setAttr]: it throws and changes nothing, or it
    returns having replaced the current mode. *)
Lemma setAttr_cases value p h :
  (exists e, setAttr conflictsWith value (mkState p h) = (Throw e, mkState p h))
  \/ (exists h', setAttr conflictsWith value (mkState p h) =
                   (Ok tt, mkState (with_currentMode value p) h')).
Proof.
  destruct (PinAttributes.validateWith value (_capabilities p)
              || (_index p =? 1) || (_index p =? 3)) eqn:H1.
  - destruct (negb (conflictsWith (_attributes p) value)
                || (_index p =? 1) || (_index p =? 3)) eqn:H2.
    + right. destruct (setAttr_ok value p h H1 H2) as (h' & Hrun & _). eauto.
    + left. eexists. apply setAttr_conflict_fail; assumption.
  - left. eexists. apply setAttr_capability_fail; assumption.
Qed.

Lemma write_cases high p h :
  write high (mkState p h) =
    if PinAttributes.has (_currentMode p) PinAttributes.Output
    then (Ok tt, mkState p (hw_digitalWrite (_index p)
                              (uint8 (Z.lxor (_readWriteMask p) high)) h))
    else (Throw no_output_attribute, mkState p h).
Proof.
  run_member.
  destruct (PinAttributes.has (_currentMode p) PinAttributes.Output); reflexivity.
Qed.

Lemma read_cases p h :
  read (mkState p h) =
    (Ok (Z.lxor (hw_digitalRead (_index p) h) (_readWriteMask p)), mkState p h).
Proof. reflexivity. Qed.

Lemma attachInterrupt_cases callback arg mode p h :
  attachInterrupt callback arg mode (mkState p h) =
    if PinAttributes.has (_currentMode p) PinAttributes.ISR
    then (Ok tt, mkState p (hw_attachInterruptArg (_index p) callback arg mode h))
    else (Throw no_isr_bind, mkState p h).
Proof.
  run_member.
  destruct (PinAttributes.has (_currentMode p) PinAttributes.ISR); reflexivity.
Qed.

Lemma detachInterrupt_cases p h :
  detachInterrupt (mkState p h) =
    if PinAttributes.has (_currentMode p) PinAttributes.ISR
    then (Ok tt, mkState p (hw_detachInterrupt (_index p) h))
    else (Throw no_isr_unbind, mkState p h).
Proof.
  run_member.
  destruct (PinAttributes.has (_currentMode p) PinAttributes.ISR); reflexivity.
Qed.

(** A call changes at most the current mode of the object. *)
Lemma exec_this c p h :
  exists m, this (exec conflictsWith c (mkState p h)) = with_currentMode m p.
Proof.
  destruct c as [value|high| |callback arg mode|]; simpl.
  - destruct (setAttr_cases value p h) as [[e ->]|[h' ->]]; simpl.
    + exists (_currentMode p). symmetry. apply with_currentMode_same.
    + exists value. reflexivity.
  - rewrite write_cases.
    destruct (PinAttributes.has _ _); simpl;
      exists (_currentMode p); symmetry; apply with_currentMode_same.
  - exists (_currentMode p). symmetry. apply with_currentMode_same.
  - rewrite attachInterrupt_cases.
    destruct (PinAttributes.has _ _); simpl;
      exists (_currentMode p); symmetry; apply with_currentMode_same.
  - rewrite detachInterrupt_cases.
    destruct (PinAttributes.has _ _); simpl;
      exists (_currentMode p); symmetry; apply with_currentMode_same.
Qed.

Lemma new_well_formed index options h p h' :
  new_GPIOPinDetail index options h = (Ok p, h') -> well_formed p.
Proof.
  rewrite new_GPIOPinDetail_spec.
  destruct (mapped index); [|discriminate].
  destruct (fold_tokens PinAttributes.None options) as [a|bad]; [|discriminate].
  intros [= <- _]. split; reflexivity.
Qed.

Lemma reachable_well_formed p : reachable conflictsWith p -> well_formed p.
Proof.
  induction 1 as [index options h p h' Hnew | c p h Hr IH].
  - eapply new_well_formed; eassumption.
  - destruct (exec_this c p h) as [m ->].
    destruct IH as [Hc Hm]. split; simpl; assumption.
Qed.

Lemma well_formed_mask p :
  well_formed p -> _readWriteMask p = LOW \/ _readWriteMask p = HIGH.
Proof.
  intros [_ ->]. destruct (PinAttributes.has _ _); [right|left]; reflexivity.
Qed.

End Calls.

(** ** Construction at an unmapped index *)

(** C3: for every index that is not a label of the capability switch (40 is
    one), the table gives [None], and constructing a native pin there fails
    with the assertion "Bad GPIO number" (the spec's ConfigurationError),
    whatever the options, with the hardware exactly as it was. *)
Theorem unmapped_index_rejected (index : Z) (options : list string) (h : Hardware) :
  mapped index = false ->
  GetDefaultCapabilities index = PinCapabilities.None
  /\ new_GPIOPinDetail index options h =
       (Throw (mkAssertionFailed "Bad GPIO number" []), h).
Proof.
  intros Hm. split.
  - apply unmapped_no_capabilities, Hm.
  - rewrite new_GPIOPinDetail_spec, Hm. reflexivity.
Qed.

Lemma unmapped_index_rejected_witness :
  mapped 40 = false
  /\ GetDefaultCapabilities 40 = PinCapabilities.None
  /\ new_GPIOPinDetail 40 ["pu"; "low"] hw_empty =
       (Throw (mkAssertionFailed "Bad GPIO number" []), hw_empty).
Proof.
  split; [reflexivity|].
  apply (unmapped_index_rejected 40 ["pu"; "low"] hw_empty). reflexivity.
Defined.

(** ** Folding the option tokens *)

Lemma recognised_token_attribute (opt : string) :
  opt ∈ recognised_tokens <-> is_Some (token_attribute opt).
Proof.
  unfold recognised_tokens. rewrite !elem_of_cons, elem_of_nil. split.
  - intros [->|[->|[->|[->|[]]]]]; eexists; reflexivity.
  - intros [a Ha]. unfold token_attribute in Ha.
    destruct (decide (opt = "pu")); [tauto|].
    destruct (decide (opt = "pd")); [tauto|].
    destruct (decide (opt = "low")); [tauto|].
    destruct (decide (opt = "high")); [tauto|discriminate Ha].
Qed.

Lemma token_attribute_flags (opt : string) (a : PinAttributes.t) :
  token_attribute opt = Some a ->
  forall f, f ∈ a <->
    (f = FPullUp /\ opt = "pu")
    \/ (f = FPullDown /\ opt = "pd")
    \/ (f = FActiveLow /\ opt = "low").
Proof.
  unfold token_attribute, PinAttributes.PullUp, PinAttributes.PullDown,
    PinAttributes.ActiveLow, PinAttributes.None.
  destruct (decide (opt = "pu")) as [->|H1].
  { intros [= <-] f. rewrite elem_of_singleton. intuition discriminate. }
  destruct (decide (opt = "pd")) as [->|H2].
  { intros [= <-] f. rewrite elem_of_singleton. intuition discriminate. }
  destruct (decide (opt = "low")) as [->|H3].
  { intros [= <-] f. rewrite elem_of_singleton. intuition discriminate. }
  destruct (decide (opt = "high")) as [->|H4]; [|discriminate].
  intros [= <-] f. rewrite elem_of_empty. intuition discriminate.
Qed.

Lemma fold_tokens_recognised (options : list string) :
  forall acc, Forall (fun opt => opt ∈ recognised_tokens) options ->
    exists a, fold_tokens acc options = inl a
      /\ forall f, f ∈ a <->
           f ∈ acc
           \/ (f = FPullUp /\ "pu" ∈ options)
           \/ (f = FPullDown /\ "pd" ∈ options)
           \/ (f = FActiveLow /\ "low" ∈ options).
Proof.
  induction options as [|opt rest IH]; intros acc Hall.
  - exists acc. split; [reflexivity|]. intros f. rewrite !elem_of_nil. tauto.
  - inversion Hall as [|? ? Hopt Hrest]; subst. simpl.
    apply recognised_token_attribute in Hopt. destruct Hopt as [a0 Ha0].
    rewrite Ha0.
    destruct (IH (acc ∪ a0) Hrest) as (a & Hfold & Ha).
    exists a. split; [exact Hfold|].
    intros f. rewrite Ha, elem_of_union, (token_attribute_flags _ _ Ha0), !elem_of_cons.
    clear. intuition (subst; auto).
Qed.

Lemma fold_tokens_offending (good : list string) (bad : string) (rest : list string) :
  forall acc, Forall (fun opt => opt ∈ recognised_tokens) good ->
    bad ∉ recognised_tokens ->
    fold_tokens acc (good ++ bad :: rest) = inr bad.
Proof.
  induction good as [|opt good IH]; intros acc Hall Hbad; simpl.
  - destruct (token_attribute bad) eqn:Ht; [|reflexivity].
    exfalso. apply Hbad, recognised_token_attribute. rewrite Ht. eauto.
  - inversion Hall as [|? ? Hopt Hgood]; subst.
    apply recognised_token_attribute in Hopt. destruct Hopt as [a ->].
    apply IH; assumption.
Qed.

(** C4: at a mapped index the loop over the option tokens adds PullUp for
    "pu", PullDown for "pd", ActiveLow for "low" and nothing for "high"; any
    other token stops it with the assertion "Bad GPIO option passed to pin
    %d: %s" carrying the pin index and that token (the spec's
    ConfigurationError).  So construction from recognised tokens only gives
    a pin whose attributes are exactly the flags of the tokens present, and
    construction with an unrecognised token gives no pin, names the first
    such token, and hands the hardware back untouched. *)
Theorem option_tokens_folded (index : Z) (options : list string) (h : Hardware) :
  mapped index = true ->
  (forall p h0,
      fold_option index "pu" (mkState p h0) =
        (Ok tt, mkState (with_attributes (_attributes p ∪ PinAttributes.PullUp) p) h0)
      /\ fold_option index "pd" (mkState p h0) =
        (Ok tt, mkState (with_attributes (_attributes p ∪ PinAttributes.PullDown) p) h0)
      /\ fold_option index "low" (mkState p h0) =
        (Ok tt, mkState (with_attributes (_attributes p ∪ PinAttributes.ActiveLow) p) h0)
      /\ fold_option index "high" (mkState p h0) = (Ok tt, mkState p h0)
      /\ (forall opt, opt ∉ recognised_tokens ->
            fold_option index opt (mkState p h0) =
              (Throw (mkAssertionFailed "Bad GPIO option passed to pin %d: %s"
                        [ArgInt index; ArgStr opt]), mkState p h0)))
  /\ (Forall (fun opt => opt ∈ recognised_tokens) options ->
      exists p,
        new_GPIOPinDetail index options h = (Ok p, h)
        /\ forall f, f ∈ _attributes p <->
             (f = FPullUp /\ "pu" ∈ options)
             \/ (f = FPullDown /\ "pd" ∈ options)
             \/ (f = FActiveLow /\ "low" ∈ options))
  /\ (forall good bad rest,
        options = good ++ bad :: rest ->
        Forall (fun opt => opt ∈ recognised_tokens) good ->
        bad ∉ recognised_tokens ->
        new_GPIOPinDetail index options h =
          (Throw (mkAssertionFailed "Bad GPIO option passed to pin %d: %s"
                    [ArgInt index; ArgStr bad]), h)).
Proof.
  intros Hm. split; [|split].
  - intros p h0. repeat split.
    + intros opt Hopt. rewrite fold_option_spec.
      destruct (token_attribute opt) eqn:Ht; [|reflexivity].
      exfalso. apply Hopt, recognised_token_attribute. rewrite Ht. eauto.
  - intros Hall. rewrite new_GPIOPinDetail_spec, Hm.
    destruct (fold_tokens_recognised options PinAttributes.None Hall) as (a & -> & Ha).
    eexists. split; [reflexivity|]. simpl. intros f. rewrite Ha.
    unfold PinAttributes.None. rewrite elem_of_empty. tauto.
  - intros good bad rest -> Hgood Hbad.
    rewrite new_GPIOPinDetail_spec, Hm.
    rewrite (fold_tokens_offending good bad rest _ Hgood Hbad). reflexivity.
Qed.

Lemma option_tokens_folded_witness :
  mapped 14 = true
  /\ new_GPIOPinDetail 14 ["pu"; "bogus"; "low"] hw_empty =
       (Throw (mkAssertionFailed "Bad GPIO option passed to pin %d: %s"
                 [ArgInt 14; ArgStr "bogus"]), hw_empty).
Proof.
  split; [reflexivity|].
  refine (proj2 (proj2 (option_tokens_folded 14 ["pu"; "bogus"; "low"] hw_empty eq_refl))
            ["pu"] "bogus" ["low"] eq_refl _ _).
  - repeat constructor.
  - unfold recognised_tokens. rewrite !elem_of_cons, elem_of_nil.
    intros [H|[H|[H|[H|[]]]]]; discriminate H.
Defined.

(** ** The capability check of [setAttr] *)

Lemma console_exempt (b : bool) (index : Z) :
  index = 1 \/ index = 3 -> b || (index =? 1) || (index =? 3) = true.
Proof.
  intros [-> | ->]; simpl; rewrite ?orb_true_r; reflexivity.
Qed.

Lemma console_not_exempt (b : bool) (index : Z) :
  index ≠ 1 -> index ≠ 3 -> b || (index =? 1) || (index =? 3) = b.
Proof.
  intros H1 H3.
  apply Z.eqb_neq in H1. apply Z.eqb_neq in H3.
  rewrite H1, H3, !orb_false_r. reflexivity.
Qed.

(** C1: on a pin object obtained from the constructor, a requested set that
    is not included in the table's capabilities for the pin's index makes
    [setAttr] fail with the assertion "The requested attributes don't match
    the pin capabilities" (the spec's AttributeError), leaving the object,
    so its current mode, and the hardware as they were.  Only the console
    indices 1 and 3 escape the check: there the same request is applied. *)
Theorem setAttr_rejects_unsupported
    (conflictsWith : PinAttributes.t -> PinAttributes.t -> bool)
    (p : GPIOPinDetail) (h : Hardware) (value : PinAttributes.t) :
  reachable conflictsWith p ->
  ¬ value ⊆ GetDefaultCapabilities (_index p) ->
  (_index p ≠ 1 -> _index p ≠ 3 ->
     setAttr conflictsWith value (mkState p h) =
       (Throw (mkAssertionFailed
                 "The requested attributes don't match the pin capabilities" []),
        mkState p h)
     /\ _currentMode (this (snd (setAttr conflictsWith value (mkState p h))))
        = _currentMode p)
  /\ (_index p = 1 \/ _index p = 3 ->
      exists h', setAttr conflictsWith value (mkState p h) =
                   (Ok tt, mkState (with_currentMode value p) h')).
Proof.
  intros Hr Hsub.
  destruct (reachable_well_formed _ _ Hr) as [Hcaps _].
  split.
  - intros H1 H3.
    assert (Hrun : setAttr conflictsWith value (mkState p h) =
                     (Throw capability_mismatch, mkState p h)).
    { apply setAttr_capability_fail.
      rewrite (console_not_exempt _ _ H1 H3), Hcaps.
      apply validateWith_false, Hsub. }
    rewrite Hrun. split; reflexivity.
  - intros Hex.
    destruct (setAttr_ok conflictsWith value p h) as (h' & Hrun & _);
      [apply console_exempt, Hex .. |].
    exists h'. exact Hrun.
Qed.

Lemma setAttr_rejects_unsupported_witness :
  reachable conflictsWith_spec
    (mkGPIOPinDetail 34 (GetDefaultCapabilities 34)
       PinAttributes.None PinAttributes.None LOW)
  /\ ¬ PinAttributes.Output ⊆ GetDefaultCapabilities 34
  /\ setAttr conflictsWith_spec PinAttributes.Output
       (mkState (mkGPIOPinDetail 34 (GetDefaultCapabilities 34)
                   PinAttributes.None PinAttributes.None LOW) hw_empty) =
       (Throw (mkAssertionFailed
                 "The requested attributes don't match the pin capabilities" []),
        mkState (mkGPIOPinDetail 34 (GetDefaultCapabilities 34)
                   PinAttributes.None PinAttributes.None LOW) hw_empty).
Proof.
  set (p := mkGPIOPinDetail 34 _ _ _ _).
  assert (Hr : reachable conflictsWith_spec p).
  { apply (reachable_new conflictsWith_spec 34 [] hw_empty p hw_empty).
    vm_compute. reflexivity. }
  assert (Hsub : ¬ PinAttributes.Output ⊆ GetDefaultCapabilities 34).
  { apply validateWith_false. vm_compute. reflexivity. }
  split; [exact Hr|]. split; [exact Hsub|].
  apply (setAttr_rejects_unsupported conflictsWith_spec p hw_empty
           PinAttributes.Output Hr Hsub); simpl; lia.
Defined.

(** ** Logical-polarity I/O *)

Lemma lxor_bool_mask (v : bool) (m : Z) :
  m = LOW \/ m = HIGH ->
  uint8 (Z.lxor m (Z.b2z v)) = Z.lxor (Z.b2z v) m
  /\ Z.lxor (Z.lxor (Z.b2z v) m) m = Z.b2z v.
Proof.
  intros [-> | ->]; destruct v; split; reflexivity.
Qed.

(** C5: [write] fails with the assertion "Pin has no output attribute
    defined. Cannot write to it." (the spec's AttributeError), touching
    nothing, unless the current mode includes Output; when it does, a
    boolean value is handed to the hardware as value XOR readWriteMask. *)
Theorem write_requires_output
    (conflictsWith : PinAttributes.t -> PinAttributes.t -> bool)
    (p : GPIOPinDetail) (h : Hardware) :
  reachable conflictsWith p ->
  (forall high : Z,
      PinAttributes.has (_currentMode p) PinAttributes.Output = false ->
      write high (mkState p h) =
        (Throw (mkAssertionFailed
                  "Pin has no output attribute defined. Cannot write to it." []),
         mkState p h))
  /\ (forall v : bool,
        PinAttributes.has (_currentMode p) PinAttributes.Output = true ->
        write (Z.b2z v) (mkState p h) =
          (Ok tt, mkState p (hw_digitalWrite (_index p)
                               (Z.lxor (Z.b2z v) (_readWriteMask p)) h))
        /\ levels (hw (snd (write (Z.b2z v) (mkState p h)))) !! _index p =
             Some (Z.lxor (Z.b2z v) (_readWriteMask p))).
Proof.
  intros Hr. split.
  - intros high Hout. rewrite write_cases, Hout. reflexivity.
  - intros v Hout. rewrite write_cases, Hout.
    destruct (lxor_bool_mask v (_readWriteMask p)) as [-> _].
    { eapply well_formed_mask, reachable_well_formed, Hr. }
    split; [reflexivity|]. simpl. apply lookup_insert_eq.
Qed.

Lemma write_requires_output_witness :
  reachable conflictsWith_spec
    (mkGPIOPinDetail 26 (GetDefaultCapabilities 26)
       PinAttributes.ActiveLow PinAttributes.None HIGH)
  /\ PinAttributes.has PinAttributes.None PinAttributes.Output = false
  /\ write 1 (mkState (mkGPIOPinDetail 26 (GetDefaultCapabilities 26)
                         PinAttributes.ActiveLow PinAttributes.None HIGH) hw_empty) =
       (Throw (mkAssertionFailed
                 "Pin has no output attribute defined. Cannot write to it." []),
        mkState (mkGPIOPinDetail 26 (GetDefaultCapabilities 26)
                   PinAttributes.ActiveLow PinAttributes.None HIGH) hw_empty).
Proof.
  set (p := mkGPIOPinDetail 26 _ _ _ _).
  assert (Hr : reachable conflictsWith_spec p).
  { apply (reachable_new conflictsWith_spec 26 ["low"] hw_empty p hw_empty).
    vm_compute. reflexivity. }
  split; [exact Hr|]. split; [reflexivity|].
  apply (proj1 (write_requires_output conflictsWith_spec p hw_empty Hr) 1).
  reflexivity.
Defined.

(** C2: on a pin object obtained from the constructor, of either polarity,
    whose current mode includes Output, [write v] for a boolean [v] returns
    and a [read] right after it returns [v]: the hardware holds v XOR
    readWriteMask, and [read] applies the same mask again. *)
Theorem read_after_write
    (conflictsWith : PinAttributes.t -> PinAttributes.t -> bool)
    (p : GPIOPinDetail) (h : Hardware) (v : bool) :
  reachable conflictsWith p ->
  PinAttributes.has (_currentMode p) PinAttributes.Output = true ->
  exists s',
    write (Z.b2z v) (mkState p h) = (Ok tt, s')
    /\ read s' = (Ok (Z.b2z v), s').
Proof.
  intros Hr Hout.
  destruct (lxor_bool_mask v (_readWriteMask p)) as [Hw Hrd].
  { eapply well_formed_mask, reachable_well_formed, Hr. }
  eexists. split.
  - rewrite write_cases, Hout. reflexivity.
  - rewrite read_cases. unfold hw_digitalRead, hw_digitalWrite. simpl.
    rewrite lookup_insert_eq. simpl. rewrite Hw, Hrd. reflexivity.
Qed.

Lemma read_after_write_witness :
  reachable conflictsWith_spec
    (mkGPIOPinDetail 26 (GetDefaultCapabilities 26)
       PinAttributes.ActiveLow PinAttributes.Output HIGH)
  /\ PinAttributes.has PinAttributes.Output PinAttributes.Output = true
  /\ exists s',
       write 1 (mkState (mkGPIOPinDetail 26 (GetDefaultCapabilities 26)
                           PinAttributes.ActiveLow PinAttributes.Output HIGH)
                  hw_empty) = (Ok tt, s')
       /\ levels (hw s') !! 26 = Some LOW
       /\ read s' = (Ok 1, s').
Proof.
  set (p := mkGPIOPinDetail 26 _ _ _ _).
  assert (Hr : reachable conflictsWith_spec p).
  { pose (p0 := mkGPIOPinDetail 26 (GetDefaultCapabilities 26)
                  PinAttributes.ActiveLow PinAttributes.None HIGH).
    assert (H0 : reachable conflictsWith_spec p0).
    { apply (reachable_new conflictsWith_spec 26 ["low"] hw_empty p0 hw_empty).
      vm_compute. reflexivity. }
    exact (reachable_call conflictsWith_spec
             (CallSetAttr PinAttributes.Output) p0 hw_empty H0). }
  split; [exact Hr|]. split; [reflexivity|].
  destruct (read_after_write conflictsWith_spec p hw_empty true Hr eq_refl)
    as (s' & Hw & Hrd).
  exists s'. split; [exact Hw|]. split; [|exact Hrd].
  rewrite write_cases in Hw. simpl in Hw. injection Hw as <-. reflexivity.
Defined.

(** ** The initial level of an output pin *)

Lemma new_active_low index h p h' :
  new_GPIOPinDetail index ["low"] h = (Ok p, h') ->
  _index p = index /\ _readWriteMask p = HIGH.
Proof.
  rewrite new_GPIOPinDetail_spec.
  destruct (mapped index); [|discriminate].
  simpl. intros [= <- _]. split; reflexivity.
Qed.

(** C6, amended: when [setAttr] returns for a requested set that includes
    Output, it has handed the hardware the level (logical 1 with InitialOn,
    logical 0 without) XOR readWriteMask.  For a pin constructed with the
    options ["low"] and a request with Output and without InitialOn that
    level is HIGH: logical 0 on an active-low line. *)
Theorem setAttr_drives_initial_level
    (conflictsWith : PinAttributes.t -> PinAttributes.t -> bool)
    (p : GPIOPinDetail) (h : Hardware) (value : PinAttributes.t) (s' : State) :
  reachable conflictsWith p ->
  PinAttributes.has value PinAttributes.Output = true ->
  setAttr conflictsWith value (mkState p h) = (Ok tt, s') ->
  levels (hw s') !! _index p =
    Some (Z.lxor (if PinAttributes.has value PinAttributes.InitialOn
                  then HIGH else LOW) (_readWriteMask p))
  /\ (forall index h0 h0',
        new_GPIOPinDetail index ["low"] h0 = (Ok p, h0') ->
        PinAttributes.has value PinAttributes.InitialOn = false ->
        levels (hw s') !! index = Some HIGH).
Proof.
  intros Hr Hout Hrun.
  assert (Hmask := well_formed_mask _ (reachable_well_formed _ _ Hr)).
  assert (Hlevel : levels (hw s') !! _index p =
            Some (Z.lxor (initial_level value) (_readWriteMask p))).
  { destruct (PinAttributes.validateWith value (_capabilities p)
                || (_index p =? 1) || (_index p =? 3)) eqn:H1;
      [|rewrite (setAttr_capability_fail _ _ _ _ H1) in Hrun; discriminate].
    destruct (negb (conflictsWith (_attributes p) value)
                || (_index p =? 1) || (_index p =? 3)) eqn:H2;
      [|rewrite (setAttr_conflict_fail _ _ _ _ H1 H2) in Hrun; discriminate].
    destruct (setAttr_ok conflictsWith value p h H1 H2) as (h' & Hok & Hlv & _).
    rewrite Hok in Hrun. injection Hrun as <-. simpl.
    rewrite Hlv, Hout, lookup_insert_eq. f_equal.
    unfold initial_level.
    destruct Hmask as [-> | ->];
      destruct (PinAttributes.has value PinAttributes.InitialOn); reflexivity. }
  split; [exact Hlevel|].
  intros index h0 h0' Hnew Hoff.
  destruct (new_active_low _ _ _ _ Hnew) as [<- Hhigh].
  rewrite Hlevel. unfold initial_level. rewrite Hoff, Hhigh. reflexivity.
Qed.

Lemma setAttr_drives_initial_level_witness :
  reachable conflictsWith_spec
    (mkGPIOPinDetail 26 (GetDefaultCapabilities 26)
       PinAttributes.ActiveLow PinAttributes.None HIGH)
  /\ PinAttributes.has PinAttributes.Output PinAttributes.Output = true
  /\ levels (hw (snd (setAttr conflictsWith_spec PinAttributes.Output
                        (mkState (mkGPIOPinDetail 26 (GetDefaultCapabilities 26)
                                    PinAttributes.ActiveLow PinAttributes.None HIGH)
                           hw_empty)))) !! 26 = Some HIGH.
Proof.
  set (p := mkGPIOPinDetail 26 _ _ _ _).
  assert (Hnew : new_GPIOPinDetail 26 ["low"] hw_empty = (Ok p, hw_empty)).
  { vm_compute. reflexivity. }
  assert (Hr : reachable conflictsWith_spec p).
  { exact (reachable_new conflictsWith_spec 26 ["low"] hw_empty p hw_empty Hnew). }
  split; [exact Hr|]. split; [vm_compute; reflexivity|].
  destruct (setAttr conflictsWith_spec PinAttributes.Output (mkState p hw_empty))
    as [r s'] eqn:Hrun.
  assert (Hres : r = Ok tt).
  { apply (f_equal fst) in Hrun. vm_compute in Hrun. symmetry. exact Hrun. }
  subst r. simpl.
  exact (proj2 (setAttr_drives_initial_level conflictsWith_spec p hw_empty
                  PinAttributes.Output s' Hr eq_refl Hrun)
           26 hw_empty hw_empty Hnew eq_refl).
Defined.

(** Counterexample to C6 as stated: the pin at index 26 constructed with
    the options ["low"] and set to Output without InitialOn receives HIGH on
    its line, not LOW. *)
Lemma setAttr_active_low_output_is_not_LOW :
  exists p s',
    new_GPIOPinDetail 26 ["low"] hw_empty = (Ok p, hw_empty)
    /\ PinAttributes.has PinAttributes.Output PinAttributes.InitialOn = false
    /\ setAttr conflictsWith_spec PinAttributes.Output (mkState p hw_empty) = (Ok tt, s')
    /\ levels (hw s') !! 26 = Some HIGH
    /\ levels (hw s') !! 26 ≠ Some LOW.
Proof.
  eexists. eexists.
  split; [vm_compute; reflexivity|].
  split; [vm_compute; reflexivity|].
  split; [vm_compute; reflexivity|].
  split; [vm_compute; reflexivity|].
  vm_compute. discriminate.
Qed.

(** ** The conflict check of [setAttr] *)

Lemma exclusive_pair_true (a b : Flag) (s : gset Flag) :
  a ∈ s -> b ∈ s -> exclusive_pair a b s = true.
Proof.
  intros Ha Hb. unfold exclusive_pair.
  rewrite (bool_decide_eq_true_2 _ Ha), (bool_decide_eq_true_2 _ Hb). reflexivity.
Qed.

(** C7: whatever the conflict test is, a requested set that it reports as
    conflicting with the pin's accumulated attributes makes [setAttr] fail,
    leaving the object and the hardware as they were: with the assertion
    "Attributes on this pin have been set before, and there's a conflict."
    when the request passes the capability check, with the capability
    assertion otherwise (both the spec's AttributeError).  At the console
    indices 1 and 3 the check is skipped and the request is applied.  In
    the conflict test as the spec words it, Input with Output and PullUp
    with PullDown are conflicts. *)
Theorem setAttr_rejects_conflict
    (conflictsWith : PinAttributes.t -> PinAttributes.t -> bool)
    (p : GPIOPinDetail) (h : Hardware) (value : PinAttributes.t) :
  conflictsWith (_attributes p) value = true ->
  (_index p ≠ 1 -> _index p ≠ 3 ->
     setAttr conflictsWith value (mkState p h) =
       (Throw (if PinAttributes.validateWith value (_capabilities p)
               then mkAssertionFailed
                      "Attributes on this pin have been set before, and there's a conflict." []
               else mkAssertionFailed
                      "The requested attributes don't match the pin capabilities" []),
        mkState p h))
  /\ (_index p = 1 \/ _index p = 3 ->
      exists h', setAttr conflictsWith value (mkState p h) =
                   (Ok tt, mkState (with_currentMode value p) h'))
  /\ (forall acc req : PinAttributes.t,
        (FInput ∈ acc ∪ req -> FOutput ∈ acc ∪ req ->
         conflictsWith_spec acc req = true)
        /\ (FPullUp ∈ acc ∪ req -> FPullDown ∈ acc ∪ req ->
            conflictsWith_spec acc req = true)).
Proof.
  intros Hconf. split; [|split].
  - intros H1 H3.
    destruct (PinAttributes.validateWith value (_capabilities p)) eqn:Hv.
    + apply setAttr_conflict_fail.
      * rewrite (console_not_exempt _ _ H1 H3). exact Hv.
      * rewrite (console_not_exempt _ _ H1 H3), Hconf. reflexivity.
    + apply setAttr_capability_fail.
      rewrite (console_not_exempt _ _ H1 H3). exact Hv.
  - intros Hex.
    destruct (setAttr_ok conflictsWith value p h) as (h' & Hrun & _);
      [apply console_exempt, Hex .. |].
    exists h'. exact Hrun.
  - intros acc req. unfold conflictsWith_spec. split; intros Ha Hb.
    + rewrite (exclusive_pair_true _ _ _ Ha Hb). reflexivity.
    + rewrite (exclusive_pair_true _ _ _ Ha Hb). apply orb_true_r.
Qed.

Lemma setAttr_rejects_conflict_witness :
  conflictsWith_spec PinAttributes.PullUp
    (PinAttributes.Input ∪ PinAttributes.PullDown) = true
  /\ setAttr conflictsWith_spec (PinAttributes.Input ∪ PinAttributes.PullDown)
       (mkState (mkGPIOPinDetail 14 (GetDefaultCapabilities 14)
                   PinAttributes.PullUp PinAttributes.None LOW) hw_empty) =
       (Throw (mkAssertionFailed
                 "Attributes on this pin have been set before, and there's a conflict." []),
        mkState (mkGPIOPinDetail 14 (GetDefaultCapabilities 14)
                   PinAttributes.PullUp PinAttributes.None LOW) hw_empty).
Proof.
  split; [vm_compute; reflexivity|].
  refine (proj1 (setAttr_rejects_conflict conflictsWith_spec
                   (mkGPIOPinDetail 14 (GetDefaultCapabilities 14)
                      PinAttributes.PullUp PinAttributes.None LOW)
                   hw_empty (PinAttributes.Input ∪ PinAttributes.PullDown) _) _ _).
  - vm_compute. reflexivity.
  - simpl. lia.
  - simpl. lia.
Defined.

(** ** Interrupt binding *)

(** C8: [attachInterrupt] and [detachInterrupt] fail with their "Pin has no
    ISR attribute" assertions (the spec's AttributeError), touching nothing,
    unless the current mode includes ISR; a freshly constructed pin is in
    that case.  After a [setAttr] that returned for a requested set with
    ISR, [attachInterrupt] returns and the interrupt controller holds the
    callback, its context and the trigger mode for the pin's index, and
    [detachInterrupt] returns and unbinds it. *)
Theorem interrupt_requires_ISR
    (conflictsWith : PinAttributes.t -> PinAttributes.t -> bool)
    (p : GPIOPinDetail) (h : Hardware) (callback arg mode : Z) :
  (PinAttributes.has (_currentMode p) PinAttributes.ISR = false ->
     attachInterrupt callback arg mode (mkState p h) =
       (Throw (mkAssertionFailed
                 "Pin has no ISR attribute, which means 'setAttr' was not set, or the pin doesn't support ISR's. Cannot bind ISR." []),
        mkState p h)
     /\ detachInterrupt (mkState p h) =
       (Throw (mkAssertionFailed
                 "Pin has no ISR attribute, which means 'setAttr' was not set, or the pin doesn't support ISR's. Cannot unbind ISR." []),
        mkState p h))
  /\ (forall index options h0 h0',
        new_GPIOPinDetail index options h0 = (Ok p, h0') ->
        PinAttributes.has (_currentMode p) PinAttributes.ISR = false)
  /\ (forall value s',
        PinAttributes.ISR ⊆ value ->
        setAttr conflictsWith value (mkState p h) = (Ok tt, s') ->
        attachInterrupt callback arg mode s' =
          (Ok tt, mkState (this s')
                    (hw_attachInterruptArg (_index p) callback arg mode (hw s')))
        /\ interrupts (hw (snd (attachInterrupt callback arg mode s'))) !! _index p =
             Some (callback, arg, mode)
        /\ detachInterrupt s' =
             (Ok tt, mkState (this s') (hw_detachInterrupt (_index p) (hw s')))).
Proof.
  split; [|split].
  - intros Hisr. rewrite attachInterrupt_cases, detachInterrupt_cases, Hisr.
    split; reflexivity.
  - intros index options h0 h0'. rewrite new_GPIOPinDetail_spec.
    destruct (mapped index); [|discriminate].
    destruct (fold_tokens PinAttributes.None options); [|discriminate].
    intros [= <- _]. simpl. vm_compute. reflexivity.
  - intros value s' Hisr Hrun.
    destruct (setAttr_cases conflictsWith value p h) as [[e He]|[h' Hok]];
      [rewrite He in Hrun; discriminate|].
    rewrite Hok in Hrun. injection Hrun as <-.
    rewrite attachInterrupt_cases, detachInterrupt_cases. simpl.
    apply has_true in Hisr. rewrite Hisr. simpl.
    split; [reflexivity|]. split; [apply lookup_insert_eq|reflexivity].
Qed.

Lemma interrupt_requires_ISR_witness :
  PinAttributes.has PinAttributes.None PinAttributes.ISR = false
  /\ attachInterrupt 4096 8192 1
       (mkState (mkGPIOPinDetail 15 (GetDefaultCapabilities 15)
                   PinAttributes.PullUp PinAttributes.None LOW) hw_empty) =
       (Throw (mkAssertionFailed
                 "Pin has no ISR attribute, which means 'setAttr' was not set, or the pin doesn't support ISR's. Cannot bind ISR." []),
        mkState (mkGPIOPinDetail 15 (GetDefaultCapabilities 15)
                   PinAttributes.PullUp PinAttributes.None LOW) hw_empty)
  /\ PinAttributes.ISR ⊆ PinAttributes.Input ∪ PinAttributes.ISR
  /\ exists s',
       setAttr conflictsWith_spec (PinAttributes.Input ∪ PinAttributes.ISR)
         (mkState (mkGPIOPinDetail 15 (GetDefaultCapabilities 15)
                     PinAttributes.PullUp PinAttributes.None LOW) hw_empty) = (Ok tt, s')
       /\ interrupts (hw (snd (attachInterrupt 4096 8192 1 s'))) !! 15 =
            Some (4096, 8192, 1).
Proof.
  set (p := mkGPIOPinDetail 15 _ _ _ _).
  destruct (interrupt_requires_ISR conflictsWith_spec p hw_empty 4096 8192 1)
    as (Hfail & _ & Hbind).
  split; [reflexivity|]. split; [apply Hfail; reflexivity|].
  assert (Hisr : PinAttributes.ISR ⊆ PinAttributes.Input ∪ PinAttributes.ISR).
  { apply has_true. vm_compute. reflexivity. }
  split; [exact Hisr|].
  destruct (setAttr conflictsWith_spec (PinAttributes.Input ∪ PinAttributes.ISR)
              (mkState p hw_empty)) as [r s'] eqn:Hrun.
  assert (Hres : r = Ok tt).
  { apply (f_equal fst) in Hrun. vm_compute in Hrun. symmetry. exact Hrun. }
  subst r. exists s'. split; [reflexivity|].
  exact (proj1 (proj2 (Hbind _ s' Hisr Hrun))).
Defined.

(** ** What [attributes] returns *)

Lemma fold_tokens_flags (options : list string) :
  forall acc a, fold_tokens acc options = inl a ->
    forall f, f ∈ a <->
      f ∈ acc
      \/ (f = FPullUp /\ "pu" ∈ options)
      \/ (f = FPullDown /\ "pd" ∈ options)
      \/ (f = FActiveLow /\ "low" ∈ options).
Proof.
  induction options as [|opt rest IH]; intros acc a; simpl.
  - intros [= <-] f. rewrite !elem_of_nil. tauto.
  - destruct (token_attribute opt) as [a0|] eqn:Ha0; [|discriminate].
    intros Hfold f.
    rewrite (IH _ _ Hfold), elem_of_union, (token_attribute_flags _ _ Ha0),
      !elem_of_cons.
    clear. intuition (subst; auto).
Qed.

(** C9, amended: [attributes] returns the attributes accumulated from the
    option tokens at construction (PullUp for "pu", PullDown for "pd",
    ActiveLow for "low").  A [setAttr] that returns leaves them as they were
    and records the requested set in the current mode instead. *)
Theorem attributes_returns_option_attributes
    (conflictsWith : PinAttributes.t -> PinAttributes.t -> bool)
    (p : GPIOPinDetail) (h : Hardware) :
  attributes (mkState p h) = (Ok (_attributes p), mkState p h)
  /\ (forall index options h0 h0',
        new_GPIOPinDetail index options h0 = (Ok p, h0') ->
        forall f, f ∈ _attributes p <->
          (f = FPullUp /\ "pu" ∈ options)
          \/ (f = FPullDown /\ "pd" ∈ options)
          \/ (f = FActiveLow /\ "low" ∈ options))
  /\ (forall value s',
        setAttr conflictsWith value (mkState p h) = (Ok tt, s') ->
        attributes s' = (Ok (_attributes p), s')
        /\ _currentMode (this s') = value).
Proof.
  split; [reflexivity|]. split.
  - intros index options h0 h0'. rewrite new_GPIOPinDetail_spec.
    destruct (mapped index); [|discriminate].
    destruct (fold_tokens PinAttributes.None options) as [a|bad] eqn:Hfold;
      [|discriminate].
    intros [= <- _] f. simpl. rewrite (fold_tokens_flags _ _ _ Hfold).
    unfold PinAttributes.None. rewrite elem_of_empty. tauto.
  - intros value s' Hrun.
    destruct (setAttr_cases conflictsWith value p h) as [[e He]|[h' Hok]];
      [rewrite He in Hrun; discriminate|].
    rewrite Hok in Hrun. injection Hrun as <-. split; reflexivity.
Qed.

Lemma attributes_returns_option_attributes_witness :
  exists s',
    setAttr conflictsWith_spec PinAttributes.Output
      (mkState (mkGPIOPinDetail 26 (GetDefaultCapabilities 26)
                  PinAttributes.ActiveLow PinAttributes.None HIGH) hw_empty) = (Ok tt, s')
    /\ attributes s' = (Ok PinAttributes.ActiveLow, s')
    /\ _currentMode (this s') = PinAttributes.Output.
Proof.
  set (p := mkGPIOPinDetail 26 _ _ _ _).
  destruct (setAttr conflictsWith_spec PinAttributes.Output (mkState p hw_empty))
    as [r s'] eqn:Hrun.
  assert (Hres : r = Ok tt).
  { apply (f_equal fst) in Hrun. vm_compute in Hrun. symmetry. exact Hrun. }
  subst r. exists s'. split; [reflexivity|].
  exact (proj2 (proj2 (attributes_returns_option_attributes conflictsWith_spec
                         p hw_empty)) PinAttributes.Output s' Hrun).
Defined.

(** Counterexample to C9 as stated: after a [setAttr] that applied Output to
    the pin at index 26 constructed without options, [attributes] returns
    the empty set, not the requested one. *)
Lemma attributes_is_not_last_setAttr :
  exists p s',
    new_GPIOPinDetail 26 [] hw_empty = (Ok p, hw_empty)
    /\ setAttr conflictsWith_spec PinAttributes.Output (mkState p hw_empty) = (Ok tt, s')
    /\ fst (attributes s') = Ok PinAttributes.None
    /\ fst (attributes s') ≠ Ok PinAttributes.Output.
Proof.
  eexists. eexists.
  split; [vm_compute; reflexivity|].
  split; [vm_compute; reflexivity|].
  split; [vm_compute; reflexivity|].
  vm_compute. discriminate.
Qed.

(** ** The accumulated attributes never change *)

Lemma setAttr_result_ignores_mode
    (conflictsWith : PinAttributes.t -> PinAttributes.t -> bool)
    (value m : PinAttributes.t) (p : GPIOPinDetail) (h h' : Hardware) :
  fst (setAttr conflictsWith value (mkState (with_currentMode m p) h')) =
  fst (setAttr conflictsWith value (mkState p h)).
Proof.
  run_member.
  destruct (PinAttributes.validateWith value (_capabilities p)
              || (_index p =? 1) || (_index p =? 3)); [|reflexivity].
  destruct (negb (conflictsWith (_attributes p) value)
              || (_index p =? 1) || (_index p =? 3)); [|reflexivity].
  simpl.
  destruct (PinAttributes.has value PinAttributes.Output);
    [destruct (PinAttributes.has value PinAttributes.InitialOn)|]; reflexivity.
Qed.

(** C10, amended: no call ([setAttr], [write], [read], [attachInterrupt],
    [detachInterrupt]), returning or throwing, changes the accumulated
    attributes, so the conflict check of [setAttr] only ever sees the
    attributes folded from the options at construction: whether a second
    [setAttr] returns or throws does not depend on what the first one
    applied; a request that does not conflict with the accumulated
    attributes is never refused by the conflict check; and two requests
    that are each within the pin's capabilities and do not conflict with
    the accumulated attributes are applied one after the other, whether or
    not they conflict with each other. *)
Theorem accumulated_attributes_fixed
    (conflictsWith : PinAttributes.t -> PinAttributes.t -> bool) :
  (forall (c : Call) (s : State),
      _attributes (this (exec conflictsWith c s)) = _attributes (this s))
  /\ (forall (p : GPIOPinDetail) (h : Hardware) (v1 v2 : PinAttributes.t) (s1 : State),
        setAttr conflictsWith v1 (mkState p h) = (Ok tt, s1) ->
        fst (setAttr conflictsWith v2 s1) =
        fst (setAttr conflictsWith v2 (mkState p h)))
  /\ (forall (p : GPIOPinDetail) (h : Hardware) (v : PinAttributes.t),
        conflictsWith (_attributes p) v = false ->
        fst (setAttr conflictsWith v (mkState p h)) ≠
          Throw (mkAssertionFailed
                   "Attributes on this pin have been set before, and there's a conflict." []))
  /\ (forall (p : GPIOPinDetail) (h : Hardware) (v1 v2 : PinAttributes.t),
        PinAttributes.validateWith v1 (_capabilities p) = true ->
        PinAttributes.validateWith v2 (_capabilities p) = true ->
        conflictsWith (_attributes p) v1 = false ->
        conflictsWith (_attributes p) v2 = false ->
        exists s1 s2,
          setAttr conflictsWith v1 (mkState p h) = (Ok tt, s1)
          /\ setAttr conflictsWith v2 s1 = (Ok tt, s2)
          /\ _currentMode (this s2) = v2
          /\ _attributes (this s2) = _attributes p).
Proof.
  split; [|split; [|split]].
  - intros c [p h]. destruct (exec_this conflictsWith c p h) as [m ->]. reflexivity.
  - intros p h v1 v2 s1 Hrun.
    destruct (setAttr_cases conflictsWith v1 p h) as [[e He]|[h' Hok]];
      [rewrite He in Hrun; discriminate|].
    rewrite Hok in Hrun. injection Hrun as <-.
    apply setAttr_result_ignores_mode.
  - intros p h v Hc.
    destruct (PinAttributes.validateWith v (_capabilities p)
                || (_index p =? 1) || (_index p =? 3)) eqn:H1.
    + destruct (setAttr_ok conflictsWith v p h H1) as (h' & -> & _).
      * rewrite Hc. reflexivity.
      * discriminate.
    + rewrite (setAttr_capability_fail _ _ _ _ H1). discriminate.
  - intros p h v1 v2 Hv1 Hv2 Hc1 Hc2.
    destruct (setAttr_ok conflictsWith v1 p h) as (h1 & Hrun1 & _).
    { rewrite Hv1. reflexivity. }
    { rewrite Hc1. reflexivity. }
    destruct (setAttr_ok conflictsWith v2 (with_currentMode v1 p) h1)
      as (h2 & Hrun2 & _).
    { simpl. rewrite Hv2. reflexivity. }
    { simpl. rewrite Hc2. reflexivity. }
    eexists. eexists. split; [exact Hrun1|]. split; [exact Hrun2|].
    split; reflexivity.
Qed.

Lemma accumulated_attributes_fixed_witness :
  PinAttributes.validateWith PinAttributes.Input (GetDefaultCapabilities 26) = true
  /\ PinAttributes.validateWith PinAttributes.Output (GetDefaultCapabilities 26) = true
  /\ conflictsWith_spec PinAttributes.PullUp PinAttributes.Input = false
  /\ conflictsWith_spec PinAttributes.PullUp PinAttributes.Output = false
  /\ conflictsWith_spec PinAttributes.Input PinAttributes.Output = true
  /\ exists s1 s2,
       setAttr conflictsWith_spec PinAttributes.Input
         (mkState (mkGPIOPinDetail 26 (GetDefaultCapabilities 26)
                     PinAttributes.PullUp PinAttributes.None LOW) hw_empty) = (Ok tt, s1)
       /\ setAttr conflictsWith_spec PinAttributes.Output s1 = (Ok tt, s2)
       /\ _currentMode (this s2) = PinAttributes.Output
       /\ _attributes (this s2) = PinAttributes.PullUp.
Proof.
  assert (Hv1 : PinAttributes.validateWith PinAttributes.Input
                  (GetDefaultCapabilities 26) = true) by (vm_compute; reflexivity).
  assert (Hv2 : PinAttributes.validateWith PinAttributes.Output
                  (GetDefaultCapabilities 26) = true) by (vm_compute; reflexivity).
  assert (Hc1 : conflictsWith_spec PinAttributes.PullUp PinAttributes.Input = false)
    by (vm_compute; reflexivity).
  assert (Hc2 : conflictsWith_spec PinAttributes.PullUp PinAttributes.Output = false)
    by (vm_compute; reflexivity).
  split; [exact Hv1|]. split; [exact Hv2|].
  split; [exact Hc1|]. split; [exact Hc2|].
  split; [vm_compute; reflexivity|].
  exact (proj2 (proj2 (proj2 (accumulated_attributes_fixed conflictsWith_spec)))
           (mkGPIOPinDetail 26 (GetDefaultCapabilities 26)
              PinAttributes.PullUp PinAttributes.None LOW)
           hw_empty PinAttributes.Input PinAttributes.Output Hv1 Hv2 Hc1 Hc2).
Defined.

(** Counterexample to C10 as stated: on the input-only pin 34 constructed
    without options, neither Input nor Output conflicts with the
    accumulated attributes, yet of the two successive calls only
    [setAttr] with Input returns; [setAttr] with Output then fails the
    capability check. *)
Lemma successive_setAttr_can_fail_capabilities :
  exists p s1,
    new_GPIOPinDetail 34 [] hw_empty = (Ok p, hw_empty)
    /\ conflictsWith_spec (_attributes p) PinAttributes.Input = false
    /\ conflictsWith_spec (_attributes p) PinAttributes.Output = false
    /\ conflictsWith_spec PinAttributes.Input PinAttributes.Output = true
    /\ setAttr conflictsWith_spec PinAttributes.Input (mkState p hw_empty) = (Ok tt, s1)
    /\ setAttr conflictsWith_spec PinAttributes.Output s1 =
         (Throw (mkAssertionFailed
                   "The requested attributes don't match the pin capabilities" []), s1).
Proof.
  eexists. eexists.
  split; [vm_compute; reflexivity|].
  split; [vm_compute; reflexivity|].
  split; [vm_compute; reflexivity|].
  split; [vm_compute; reflexivity|].
  split; [vm_compute; reflexivity|].
  vm_compute. reflexivity.
Qed.

(** * Further properties of the pin code *)

(** ** Construction *)

Lemma fold_tokens_inl_recognised (options : list string) :
  forall acc a, fold_tokens acc options = inl a ->
    Forall (fun opt => opt ∈ recognised_tokens) options.
Proof.
  induction options as [|opt rest IH]; intros acc a; simpl.
  - constructor.
  - destruct (token_attribute opt) as [a0|] eqn:Ha0; [|discriminate].
    intros Hfold. constructor.
    + apply recognised_token_attribute. rewrite Ha0. eauto.
    + eapply IH, Hfold.
Qed.

(** X1: the constructor never touches the hardware, and it yields a pin
    exactly when the index is a label of the capability switch and every
    option token is one of "pu", "pd", "low", "high"; the new pin carries
    the index, the table's capabilities and an empty current mode. *)
Theorem new_GPIOPinDetail_succeeds_iff (index : Z) (options : list string) (h : Hardware) :
  snd (new_GPIOPinDetail index options h) = h
  /\ ((exists p, fst (new_GPIOPinDetail index options h) = Ok p)
      <-> mapped index = true
          /\ Forall (fun opt => opt ∈ recognised_tokens) options)
  /\ (forall p, fst (new_GPIOPinDetail index options h) = Ok p ->
        _index p = index
        /\ _capabilities p = GetDefaultCapabilities index
        /\ _currentMode p = PinAttributes.None).
Proof.
  rewrite new_GPIOPinDetail_spec.
  destruct (mapped index) eqn:Hm.
  - destruct (fold_tokens PinAttributes.None options) as [a|bad] eqn:Hfold; simpl.
    + split; [reflexivity|]. split.
      * split; [|eauto]. intros _. split; [reflexivity|].
        eapply fold_tokens_inl_recognised, Hfold.
      * intros p [= <-]. repeat split.
    + split; [reflexivity|]. split.
      * split; [intros [p [=]]|]. intros [_ Hall].
        destruct (fold_tokens_recognised options PinAttributes.None Hall) as (a & Ha & _).
        rewrite Ha in Hfold. discriminate.
      * intros p [=].
  - simpl. split; [reflexivity|]. split.
    + split; [intros [p [=]]|intros [[=] _]].
    + intros p [=].
Qed.

Lemma new_GPIOPinDetail_succeeds_iff_witness :
  exists p, fst (new_GPIOPinDetail 12 ["pd"; "high"] hw_empty) = Ok p.
Proof.
  apply (proj1 (proj2 (new_GPIOPinDetail_succeeds_iff 12 ["pd"; "high"] hw_empty))).
  split; [reflexivity|]. repeat constructor.
Defined.

(** X2: for recognised tokens the constructor's result depends only on
    which of "pu", "pd" and "low" occur among the options: their order,
    repetitions and any "high" make no difference. *)
Theorem new_GPIOPinDetail_token_set
    (index : Z) (options options' : list string) (h : Hardware) :
  Forall (fun opt => opt ∈ recognised_tokens) options ->
  Forall (fun opt => opt ∈ recognised_tokens) options' ->
  (forall t, t ∈ ["pu"; "pd"; "low"] -> (t ∈ options <-> t ∈ options')) ->
  new_GPIOPinDetail index options h = new_GPIOPinDetail index options' h.
Proof.
  intros Hall Hall' Hsame.
  rewrite !new_GPIOPinDetail_spec.
  destruct (mapped index); [|reflexivity].
  destruct (fold_tokens_recognised options PinAttributes.None Hall) as (a & -> & Ha).
  destruct (fold_tokens_recognised options' PinAttributes.None Hall') as (a' & -> & Ha').
  assert (Heq : a = a').
  { apply leibniz_equiv, set_equiv. intros f. rewrite Ha, Ha'.
    assert (Hpu := Hsame "pu"). assert (Hpd := Hsame "pd").
    assert (Hlow := Hsame "low").
    rewrite !elem_of_cons in Hpu, Hpd, Hlow.
    clear -Hpu Hpd Hlow. intuition auto. }
  rewrite Heq. reflexivity.
Qed.

Lemma new_GPIOPinDetail_token_set_witness :
  new_GPIOPinDetail 14 ["low"; "pu"; "high"; "pu"] hw_empty =
  new_GPIOPinDetail 14 ["pu"; "low"] hw_empty.
Proof.
  apply new_GPIOPinDetail_token_set.
  - repeat constructor.
  - repeat constructor.
  - intros t Ht. rewrite !elem_of_cons, elem_of_nil in Ht.
    destruct Ht as [->|[->|[->|[]]]]; rewrite !elem_of_cons, !elem_of_nil;
      split; intros Hin;
      first [ solve [repeat first [left; reflexivity | right]]
            | exfalso; intuition discriminate ].
Defined.

(** X3: a constructed pin is active-low, with mask HIGH, exactly when "low"
    is among its options, and has mask LOW otherwise; a "high" token, before
    or after, does not undo a "low". *)
Theorem readWriteMask_follows_low
    (index : Z) (options : list string) (h h' : Hardware) (p : GPIOPinDetail) :
  new_GPIOPinDetail index options h = (Ok p, h') ->
  (_readWriteMask p = HIGH <-> "low" ∈ options)
  /\ (_readWriteMask p = LOW <-> "low" ∉ options).
Proof.
  rewrite new_GPIOPinDetail_spec.
  destruct (mapped index); [|discriminate].
  destruct (fold_tokens PinAttributes.None options) as [a|bad] eqn:Hfold;
    [|discriminate].
  intros [= <- _]. simpl.
  assert (Hlow : PinAttributes.has a PinAttributes.ActiveLow = true <-> "low" ∈ options).
  { rewrite has_true. unfold PinAttributes.ActiveLow.
    rewrite <- elem_of_subseteq_singleton, (fold_tokens_flags _ _ _ Hfold).
    unfold PinAttributes.None. rewrite elem_of_empty.
    clear. intuition (discriminate || auto). }
  destruct (PinAttributes.has a PinAttributes.ActiveLow).
  - assert (Hin : "low" ∈ options) by (apply Hlow; reflexivity).
    split; split; intros Hx;
      first [reflexivity | assumption | discriminate Hx | contradiction].
  - assert (Hnin : "low" ∉ options) by (intros Hin; apply Hlow in Hin; discriminate).
    split; split; intros Hx;
      first [reflexivity | assumption | discriminate Hx | contradiction].
Qed.

Lemma readWriteMask_follows_low_witness :
  "low" ∈ ["low"; "high"]
  /\ _readWriteMask (mkGPIOPinDetail 13 (GetDefaultCapabilities 13)
                       PinAttributes.ActiveLow PinAttributes.None HIGH) = HIGH.
Proof.
  assert (Hin : "low" ∈ ["low"; "high"]) by (apply elem_of_cons; left; reflexivity).
  split; [exact Hin|].
  assert (Hnew : new_GPIOPinDetail 13 ["low"; "high"] hw_empty =
                   (Ok (mkGPIOPinDetail 13 (GetDefaultCapabilities 13)
                          PinAttributes.ActiveLow PinAttributes.None HIGH), hw_empty)).
  { vm_compute. reflexivity. }
  apply (proj1 (readWriteMask_follows_low 13 ["low"; "high"] hw_empty hw_empty _ Hnew)).
  exact Hin.
Defined.

(** ** What every sequence of calls keeps *)

Lemma mapped_native (index : Z) :
  mapped index = true -> FNative ∈ GetDefaultCapabilities index.
Proof.
  unfold mapped. rewrite bool_decide_eq_true. unfold mapped_indices.
  rewrite !elem_of_cons, elem_of_nil. intros H.
  repeat (destruct H as [-> | H]; [vm_compute; reflexivity|]). destruct H.
Qed.

Section Reachable.

Variable conflictsWith : PinAttributes.t -> PinAttributes.t -> bool.

Lemma setAttr_ok_inv value p h s' :
  setAttr conflictsWith value (mkState p h) = (Ok tt, s') ->
  PinAttributes.validateWith value (_capabilities p)
    || (_index p =? 1) || (_index p =? 3) = true
  /\ negb (conflictsWith (_attributes p) value)
       || (_index p =? 1) || (_index p =? 3) = true
  /\ this s' = with_currentMode value p.
Proof.
  intros Hrun.
  destruct (PinAttributes.validateWith value (_capabilities p)
              || (_index p =? 1) || (_index p =? 3)) eqn:H1;
    [|rewrite (setAttr_capability_fail _ _ _ _ H1) in Hrun; discriminate].
  destruct (negb (conflictsWith (_attributes p) value)
              || (_index p =? 1) || (_index p =? 3)) eqn:H2;
    [|rewrite (setAttr_conflict_fail _ _ _ _ H1 H2) in Hrun; discriminate].
  destruct (setAttr_ok conflictsWith value p h H1 H2) as (h' & Hok & _).
  rewrite Hok in Hrun. injection Hrun as <-. repeat split.
Qed.

Lemma exec_this_cases c p h :
  this (exec conflictsWith c (mkState p h)) = p
  \/ exists value,
       PinAttributes.validateWith value (_capabilities p)
         || (_index p =? 1) || (_index p =? 3) = true
       /\ negb (conflictsWith (_attributes p) value)
            || (_index p =? 1) || (_index p =? 3) = true
       /\ this (exec conflictsWith c (mkState p h)) = with_currentMode value p.
Proof.
  destruct c as [value|high| |callback arg mode|]; simpl.
  - destruct (setAttr conflictsWith value (mkState p h)) as [[[]|e] s'] eqn:Hrun.
    + right. exists value. apply (setAttr_ok_inv _ _ _ _ Hrun).
    + left. destruct (setAttr_cases conflictsWith value p h) as [[e' He]|[h' Hok]];
        rewrite Hrun in *; [injection He as _ ->; reflexivity|discriminate].
  - left. rewrite write_cases. destruct (PinAttributes.has _ _); reflexivity.
  - left. reflexivity.
  - left. rewrite attachInterrupt_cases. destruct (PinAttributes.has _ _); reflexivity.
  - left. rewrite detachInterrupt_cases. destruct (PinAttributes.has _ _); reflexivity.
Qed.

Lemma reachable_mapped p : reachable conflictsWith p -> mapped (_index p) = true.
Proof.
  induction 1 as [index options h p h' Hnew | c p h Hr IH].
  - rewrite new_GPIOPinDetail_spec in Hnew.
    destruct (mapped index) eqn:Hm; [|discriminate].
    destruct (fold_tokens PinAttributes.None options); [|discriminate].
    injection Hnew as <- _. exact Hm.
  - destruct (exec_this conflictsWith c p h) as [m ->]. exact IH.
Qed.

Lemma reachable_mode p :
  reachable conflictsWith p ->
  _index p ≠ 1 -> _index p ≠ 3 ->
  _currentMode p ⊆ _capabilities p
  /\ (_currentMode p = PinAttributes.None
      \/ conflictsWith (_attributes p) (_currentMode p) = false).
Proof.
  induction 1 as [index options h p h' Hnew | c p h Hr IH].
  - rewrite new_GPIOPinDetail_spec in Hnew.
    destruct (mapped index); [|discriminate].
    destruct (fold_tokens PinAttributes.None options); [|discriminate].
    injection Hnew as <- _. simpl. intros _ _. split; [|left; reflexivity].
    unfold PinAttributes.None. apply empty_subseteq.
  - destruct (exec_this_cases c p h) as [-> | (value & H1 & H2 & ->)];
      [exact IH|].
    simpl. intros Hn1 Hn3.
    rewrite (console_not_exempt _ _ Hn1 Hn3) in H1.
    rewrite (console_not_exempt _ _ Hn1 Hn3) in H2.
    split.
    + apply validateWith_true, H1.
    + right. apply negb_true_iff, H2.
Qed.

End Reachable.

(** X4: on every pin object a program can hold, [capabilities] returns the
    capability table's entry for the pin's index, which includes Native (so
    is never None), and no call changes the index, the capabilities or the
    read/write mask, whether it returns or throws. *)
Theorem identity_fixed
    (conflictsWith : PinAttributes.t -> PinAttributes.t -> bool)
    (p : GPIOPinDetail) (h : Hardware) :
  reachable conflictsWith p ->
  capabilities (mkState p h) = (Ok (GetDefaultCapabilities (_index p)), mkState p h)
  /\ FNative ∈ GetDefaultCapabilities (_index p)
  /\ forall c : Call,
       _index (this (exec conflictsWith c (mkState p h))) = _index p
       /\ _capabilities (this (exec conflictsWith c (mkState p h))) = _capabilities p
       /\ _readWriteMask (this (exec conflictsWith c (mkState p h))) = _readWriteMask p.
Proof.
  intros Hr.
  destruct (reachable_well_formed _ _ Hr) as [Hcaps _].
  split; [|split].
  - unfold capabilities, bind, self, ret. simpl. rewrite Hcaps. reflexivity.
  - apply mapped_native, (reachable_mapped _ _ Hr).
  - intros c. destruct (exec_this conflictsWith c p h) as [m ->]. repeat split.
Qed.

Lemma identity_fixed_witness :
  reachable conflictsWith_spec
    (mkGPIOPinDetail 33 (GetDefaultCapabilities 33)
       PinAttributes.PullDown PinAttributes.None LOW)
  /\ _readWriteMask
       (this (exec conflictsWith_spec (CallSetAttr PinAttributes.Input)
                (mkState (mkGPIOPinDetail 33 (GetDefaultCapabilities 33)
                            PinAttributes.PullDown PinAttributes.None LOW)
                   hw_empty))) = LOW.
Proof.
  set (p := mkGPIOPinDetail 33 _ _ _ _).
  assert (Hr : reachable conflictsWith_spec p).
  { apply (reachable_new conflictsWith_spec 33 ["pd"] hw_empty p hw_empty).
    vm_compute. reflexivity. }
  split; [exact Hr|].
  apply (proj2 (proj2 (identity_fixed conflictsWith_spec p hw_empty Hr))
           (CallSetAttr PinAttributes.Input)).
Defined.

(** X5: on every pin object a program can hold, other than at the console
    indices 1 and 3, the current mode is included in the pin's capabilities,
    and it is either still empty or a set the conflict test accepted against
    the accumulated attributes. *)
Theorem currentMode_within_capabilities
    (conflictsWith : PinAttributes.t -> PinAttributes.t -> bool)
    (p : GPIOPinDetail) :
  reachable conflictsWith p ->
  _index p ≠ 1 -> _index p ≠ 3 ->
  _currentMode p ⊆ GetDefaultCapabilities (_index p)
  /\ (_currentMode p = PinAttributes.None
      \/ conflictsWith (_attributes p) (_currentMode p) = false).
Proof.
  intros Hr H1 H3.
  destruct (reachable_well_formed _ _ Hr) as [Hcaps _].
  rewrite <- Hcaps. apply reachable_mode; assumption.
Qed.

Lemma currentMode_within_capabilities_witness :
  reachable conflictsWith_spec
    (mkGPIOPinDetail 26 (GetDefaultCapabilities 26)
       PinAttributes.ActiveLow PinAttributes.Output HIGH)
  /\ PinAttributes.Output ⊆ GetDefaultCapabilities 26.
Proof.
  set (p := mkGPIOPinDetail 26 _ _ _ _).
  assert (Hr : reachable conflictsWith_spec p).
  { pose (p0 := mkGPIOPinDetail 26 (GetDefaultCapabilities 26)
                  PinAttributes.ActiveLow PinAttributes.None HIGH).
    assert (H0 : reachable conflictsWith_spec p0).
    { apply (reachable_new conflictsWith_spec 26 ["low"] hw_empty p0 hw_empty).
      vm_compute. reflexivity. }
    exact (reachable_call conflictsWith_spec
             (CallSetAttr PinAttributes.Output) p0 hw_empty H0). }
  split; [exact Hr|].
  apply (currentMode_within_capabilities conflictsWith_spec p Hr); simpl; lia.
Defined.

(** X6: the input-only pins 34, 35, 36 and 39 can never be written: on a
    pin object at one of these indices, whatever calls were made before,
    [setAttr] refuses every request that includes Output with the
    capability assertion, and [write] throws the no-output assertion. *)
Theorem input_only_pin_never_writes
    (conflictsWith : PinAttributes.t -> PinAttributes.t -> bool)
    (p : GPIOPinDetail) (h : Hardware) :
  reachable conflictsWith p ->
  _index p ∈ [34; 35; 36; 39] ->
  (forall value, PinAttributes.Output ⊆ value ->
      setAttr conflictsWith value (mkState p h) =
        (Throw (mkAssertionFailed
                  "The requested attributes don't match the pin capabilities" []),
         mkState p h))
  /\ (forall high : Z,
        write high (mkState p h) =
          (Throw (mkAssertionFailed
                    "Pin has no output attribute defined. Cannot write to it." []),
           mkState p h)).
Proof.
  intros Hr Hidx.
  destruct (reachable_well_formed _ _ Hr) as [Hcaps _].
  assert (Hno : (FOutput ∉ _capabilities p) /\ _index p ≠ 1 /\ _index p ≠ 3).
  { rewrite Hcaps. rewrite !elem_of_cons, elem_of_nil in Hidx.
    destruct Hidx as [->|[->|[->|[->|[]]]]];
      (split; [vm_compute; discriminate | split; discriminate]). }
  destruct Hno as (Hno & H1 & H3).
  split.
  - intros value Hout. apply setAttr_capability_fail.
    rewrite (console_not_exempt _ _ H1 H3).
    apply validateWith_false. intros Hsub. apply Hno, Hsub.
    unfold PinAttributes.Output in Hout.
    apply elem_of_subseteq_singleton, Hout.
  - intros high. rewrite write_cases.
    destruct (PinAttributes.has (_currentMode p) PinAttributes.Output) eqn:Hhas;
      [|reflexivity].
    exfalso. apply Hno.
    destruct (reachable_mode conflictsWith p Hr H1 H3) as [Hsub _].
    apply Hsub. apply has_true in Hhas.
    apply elem_of_subseteq_singleton, Hhas.
Qed.

Lemma input_only_pin_never_writes_witness :
  reachable conflictsWith_spec
    (mkGPIOPinDetail 36 (GetDefaultCapabilities 36)
       PinAttributes.None (PinAttributes.Input ∪ PinAttributes.ISR) LOW)
  /\ 36 ∈ [34; 35; 36; 39]
  /\ write 1 (mkState (mkGPIOPinDetail 36 (GetDefaultCapabilities 36)
                         PinAttributes.None (PinAttributes.Input ∪ PinAttributes.ISR) LOW)
                hw_empty) =
       (Throw (mkAssertionFailed
                 "Pin has no output attribute defined. Cannot write to it." []),
        mkState (mkGPIOPinDetail 36 (GetDefaultCapabilities 36)
                   PinAttributes.None (PinAttributes.Input ∪ PinAttributes.ISR) LOW)
          hw_empty).
Proof.
  set (p := mkGPIOPinDetail 36 _ _ _ _).
  assert (Hr : reachable conflictsWith_spec p).
  { pose (p0 := mkGPIOPinDetail 36 (GetDefaultCapabilities 36)
                  PinAttributes.None PinAttributes.None LOW).
    assert (H0 : reachable conflictsWith_spec p0).
    { apply (reachable_new conflictsWith_spec 36 [] hw_empty p0 hw_empty).
      vm_compute. reflexivity. }
    exact (reachable_call conflictsWith_spec
             (CallSetAttr (PinAttributes.Input ∪ PinAttributes.ISR)) p0 hw_empty H0). }
  assert (Hidx : 36 ∈ [34; 35; 36; 39]).
  { rewrite !elem_of_cons. right. right. left. reflexivity. }
  split; [exact Hr|]. split; [exact Hidx|].
  apply (proj2 (input_only_pin_never_writes conflictsWith_spec p hw_empty Hr Hidx) 1).
Defined.

(** ** What [setAttr] hands to the hardware *)

Section SetAttrEffect.

Variable conflictsWith : PinAttributes.t -> PinAttributes.t -> bool.

(** The state a returning [setAttr] leaves, in full. *)
Lemma setAttr_returns value p h s' :
  setAttr conflictsWith value (mkState p h) = (Ok tt, s') ->
  s' = mkState (with_currentMode value p)
         (hw_pinMode (_index p)
            (Z.lor (if PinAttributes.has value PinAttributes.Input then INPUT
                    else if PinAttributes.has value PinAttributes.Output then OUTPUT
                    else 0)
                   (if PinAttributes.has (_attributes p) PinAttributes.PullUp
                       || PinAttributes.has value PinAttributes.PullUp then PULLUP
                    else if PinAttributes.has (_attributes p) PinAttributes.PullDown
                            || PinAttributes.has value PinAttributes.PullDown then PULLDOWN
                    else 0))
            (if PinAttributes.has value PinAttributes.Output
             then hw_digitalWrite (_index p)
                    (uint8 (Z.lxor (initial_level value) (_readWriteMask p))) h
             else h)).
Proof.
  intros Hrun.
  destruct (setAttr_ok_inv conflictsWith _ _ _ _ Hrun) as (H1 & H2 & _).
  revert Hrun. unfold initial_level. run_member. rewrite H1, H2. simpl.
  destruct (PinAttributes.has value PinAttributes.Input),
    (PinAttributes.has value PinAttributes.Output),
    (PinAttributes.has value PinAttributes.InitialOn),
    (PinAttributes.has (_attributes p) PinAttributes.PullUp
       || PinAttributes.has value PinAttributes.PullUp),
    (PinAttributes.has (_attributes p) PinAttributes.PullDown
       || PinAttributes.has value PinAttributes.PullDown);
    simpl; intros [= <-]; reflexivity.
Qed.

Lemma has_singleton_union (f : Flag) (a b : PinAttributes.t) :
  PinAttributes.has a {[ f ]} || PinAttributes.has b {[ f ]} = true <-> f ∈ a ∪ b.
Proof.
  rewrite orb_true_iff, !has_true, <- !elem_of_subseteq_singleton, elem_of_union.
  reflexivity.
Qed.

End SetAttrEffect.

(** X7: a call that throws changes nothing: when [setAttr], [write],
    [attachInterrupt] or [detachInterrupt] fails its assertion, the object
    and the hardware are exactly as before the call. *)
Theorem throwing_call_changes_nothing
    (conflictsWith : PinAttributes.t -> PinAttributes.t -> bool)
    (s s' : State) (e : AssertionFailed) :
  (forall value, setAttr conflictsWith value s = (Throw e, s') -> s' = s)
  /\ (forall high, write high s = (Throw e, s') -> s' = s)
  /\ (forall callback arg mode,
        attachInterrupt callback arg mode s = (Throw e, s') -> s' = s)
  /\ (detachInterrupt s = (Throw e, s') -> s' = s).
Proof.
  destruct s as [p h]. repeat split.
  - intros value Hrun.
    destruct (setAttr_cases conflictsWith value p h) as [[e' He]|[h' Hok]];
      rewrite Hrun in *; [injection He as _ ->; reflexivity|discriminate].
  - intros high. rewrite write_cases.
    destruct (PinAttributes.has _ _); [discriminate|]. intros [= _ <-]. reflexivity.
  - intros callback arg mode. rewrite attachInterrupt_cases.
    destruct (PinAttributes.has _ _); [discriminate|]. intros [= _ <-]. reflexivity.
  - rewrite detachInterrupt_cases.
    destruct (PinAttributes.has _ _); [discriminate|]. intros [= _ <-]. reflexivity.
Qed.

Lemma throwing_call_changes_nothing_witness :
  setAttr conflictsWith_spec PinAttributes.PullUp
    (mkState (mkGPIOPinDetail 7 (GetDefaultCapabilities 7)
                PinAttributes.None PinAttributes.Output LOW) hw_empty) =
    (Throw (mkAssertionFailed
              "The requested attributes don't match the pin capabilities" []),
     mkState (mkGPIOPinDetail 7 (GetDefaultCapabilities 7)
                PinAttributes.None PinAttributes.Output LOW) hw_empty).
Proof.
  destruct (setAttr conflictsWith_spec PinAttributes.PullUp
              (mkState (mkGPIOPinDetail 7 (GetDefaultCapabilities 7)
                          PinAttributes.None PinAttributes.Output LOW) hw_empty))
    as [r s'] eqn:Hrun.
  assert (Hres : r = Throw (mkAssertionFailed
                   "The requested attributes don't match the pin capabilities" [])).
  { apply (f_equal fst) in Hrun. vm_compute in Hrun. symmetry. exact Hrun. }
  subst r.
  rewrite (proj1 (throwing_call_changes_nothing conflictsWith_spec _ s' _)
             PinAttributes.PullUp Hrun).
  reflexivity.
Defined.

(** X8: when [setAttr] returns, the mode it gave [__pinMode] for the pin
    has the INPUT bit exactly when Input was requested, and the OUTPUT bit
    exactly when Output was requested and Input was not: Input takes
    precedence, and the two are never set together. *)
Theorem setAttr_direction
    (conflictsWith : PinAttributes.t -> PinAttributes.t -> bool)
    (p : GPIOPinDetail) (h : Hardware) (value : PinAttributes.t) (s' : State) :
  setAttr conflictsWith value (mkState p h) = (Ok tt, s') ->
  exists m,
    modes (hw s') !! _index p = Some m
    /\ (Z.land m INPUT = INPUT <-> PinAttributes.Input ⊆ value)
    /\ (Z.land m OUTPUT = OUTPUT <->
        PinAttributes.Output ⊆ value /\ ¬ PinAttributes.Input ⊆ value)
    /\ ¬ (Z.land m INPUT = INPUT /\ Z.land m OUTPUT = OUTPUT).
Proof.
  intros Hrun. rewrite (setAttr_returns _ _ _ _ _ Hrun). simpl.
  eexists. split; [apply lookup_insert_eq|].
  rewrite <- !has_true.
  destruct (PinAttributes.has value PinAttributes.Input),
    (PinAttributes.has value PinAttributes.Output),
    (PinAttributes.has (_attributes p) PinAttributes.PullUp
       || PinAttributes.has value PinAttributes.PullUp),
    (PinAttributes.has (_attributes p) PinAttributes.PullDown
       || PinAttributes.has value PinAttributes.PullDown);
    vm_compute; intuition discriminate.
Qed.

Lemma setAttr_direction_witness :
  exists s' m,
    setAttr conflictsWith_spec (PinAttributes.Input ∪ PinAttributes.Output)
      (mkState (mkGPIOPinDetail 3 (GetDefaultCapabilities 3)
                  PinAttributes.None PinAttributes.None LOW) hw_empty) = (Ok tt, s')
    /\ modes (hw s') !! 3 = Some m
    /\ Z.land m INPUT = INPUT
    /\ Z.land m OUTPUT ≠ OUTPUT.
Proof.
  set (p := mkGPIOPinDetail 3 _ _ _ _).
  destruct (setAttr conflictsWith_spec (PinAttributes.Input ∪ PinAttributes.Output)
              (mkState p hw_empty)) as [r s'] eqn:Hrun.
  assert (Hres : r = Ok tt).
  { apply (f_equal fst) in Hrun. vm_compute in Hrun. symmetry. exact Hrun. }
  subst r.
  destruct (setAttr_direction conflictsWith_spec p hw_empty _ s' Hrun)
    as (m & Hm & Hin & Hout & _).
  exists s', m. split; [reflexivity|]. split; [exact Hm|].
  assert (Hsub : PinAttributes.Input ⊆ PinAttributes.Input ∪ PinAttributes.Output).
  { apply has_true. vm_compute. reflexivity. }
  split; [apply Hin, Hsub|].
  intros Ho. apply Hout in Ho. destruct Ho as [_ Hno]. apply Hno, Hsub.
Defined.

(** X9: when [setAttr] returns, the mode it gave [__pinMode] has the PULLUP
    bit exactly when PullUp is among the attributes accumulated from the
    options or among the requested ones, and the PULLDOWN bit exactly when
    PullDown is among them and PullUp is not: a pull set by an option is
    applied by every [setAttr], and pull-up wins over pull-down. *)
Theorem setAttr_pull
    (conflictsWith : PinAttributes.t -> PinAttributes.t -> bool)
    (p : GPIOPinDetail) (h : Hardware) (value : PinAttributes.t) (s' : State) :
  setAttr conflictsWith value (mkState p h) = (Ok tt, s') ->
  exists m,
    modes (hw s') !! _index p = Some m
    /\ (Z.land m PULLUP = PULLUP <-> FPullUp ∈ _attributes p ∪ value)
    /\ (Z.land m PULLDOWN = PULLDOWN <->
        FPullDown ∈ _attributes p ∪ value /\ FPullUp ∉ _attributes p ∪ value).
Proof.
  intros Hrun. rewrite (setAttr_returns _ _ _ _ _ Hrun). simpl.
  eexists. split; [apply lookup_insert_eq|].
  rewrite <- !has_singleton_union.
  fold PinAttributes.PullUp. fold PinAttributes.PullDown.
  destruct (PinAttributes.has value PinAttributes.Input),
    (PinAttributes.has value PinAttributes.Output),
    (PinAttributes.has (_attributes p) PinAttributes.PullUp
       || PinAttributes.has value PinAttributes.PullUp),
    (PinAttributes.has (_attributes p) PinAttributes.PullDown
       || PinAttributes.has value PinAttributes.PullDown);
    vm_compute; intuition discriminate.
Qed.

Lemma setAttr_pull_witness :
  exists s' m,
    setAttr conflictsWith_spec PinAttributes.Input
      (mkState (mkGPIOPinDetail 15 (GetDefaultCapabilities 15)
                  PinAttributes.PullUp PinAttributes.None LOW) hw_empty) = (Ok tt, s')
    /\ modes (hw s') !! 15 = Some m
    /\ Z.land m PULLUP = PULLUP.
Proof.
  set (p := mkGPIOPinDetail 15 _ _ _ _).
  destruct (setAttr conflictsWith_spec PinAttributes.Input (mkState p hw_empty))
    as [r s'] eqn:Hrun.
  assert (Hres : r = Ok tt).
  { apply (f_equal fst) in Hrun. vm_compute in Hrun. symmetry. exact Hrun. }
  subst r.
  destruct (setAttr_pull conflictsWith_spec p hw_empty _ s' Hrun)
    as (m & Hm & Hup & _).
  exists s', m. split; [reflexivity|]. split; [exact Hm|].
  apply Hup. vm_compute. reflexivity.
Defined.

(** X10: a returning [setAttr] touches only its own pin: the interrupt
    bindings are as before, the levels and modes of every other pin are as
    before, and when Output is not requested no level is driven at all. *)
Theorem setAttr_frame
    (conflictsWith : PinAttributes.t -> PinAttributes.t -> bool)
    (p : GPIOPinDetail) (h : Hardware) (value : PinAttributes.t) (s' : State) :
  setAttr conflictsWith value (mkState p h) = (Ok tt, s') ->
  interrupts (hw s') = interrupts h
  /\ (forall pin, pin ≠ _index p ->
        levels (hw s') !! pin = levels h !! pin
        /\ modes (hw s') !! pin = modes h !! pin)
  /\ (¬ PinAttributes.Output ⊆ value -> levels (hw s') = levels h).
Proof.
  intros Hrun. rewrite (setAttr_returns _ _ _ _ _ Hrun). simpl.
  split; [|split].
  - destruct (PinAttributes.has value PinAttributes.Output); reflexivity.
  - intros pin Hne. split.
    + destruct (PinAttributes.has value PinAttributes.Output); simpl;
        [apply lookup_insert_ne; congruence | reflexivity].
    + rewrite lookup_insert_ne by congruence.
      destruct (PinAttributes.has value PinAttributes.Output); reflexivity.
  - intros Hno. apply has_false in Hno. rewrite Hno. reflexivity.
Qed.

Lemma setAttr_frame_witness :
  exists s',
    setAttr conflictsWith_spec PinAttributes.Input
      (mkState (mkGPIOPinDetail 4 (GetDefaultCapabilities 4)
                  PinAttributes.None PinAttributes.None LOW)
         (hw_digitalWrite 12 HIGH hw_empty)) = (Ok tt, s')
    /\ levels (hw s') = levels (hw_digitalWrite 12 HIGH hw_empty).
Proof.
  set (p := mkGPIOPinDetail 4 _ _ _ _).
  destruct (setAttr conflictsWith_spec PinAttributes.Input
              (mkState p (hw_digitalWrite 12 HIGH hw_empty))) as [r s'] eqn:Hrun.
  assert (Hres : r = Ok tt).
  { apply (f_equal fst) in Hrun. vm_compute in Hrun. symmetry. exact Hrun. }
  subst r. exists s'. split; [reflexivity|].
  apply (proj2 (proj2 (setAttr_frame conflictsWith_spec p _ _ s' Hrun))).
  apply has_false. vm_compute. reflexivity.
Defined.

(** X12: [setAttr] replaces the current mode, it does not merge: after a
    returning [setAttr] whose request has no Output, [write] throws, and
    after one whose request has no ISR, [attachInterrupt] and
    [detachInterrupt] throw, whatever the mode was before. *)
Theorem setAttr_replaces_mode
    (conflictsWith : PinAttributes.t -> PinAttributes.t -> bool)
    (p : GPIOPinDetail) (h : Hardware) (value : PinAttributes.t) (s' : State) :
  setAttr conflictsWith value (mkState p h) = (Ok tt, s') ->
  _currentMode (this s') = value
  /\ (¬ PinAttributes.Output ⊆ value ->
      forall high,
        write high s' =
          (Throw (mkAssertionFailed
                    "Pin has no output attribute defined. Cannot write to it." []), s'))
  /\ (¬ PinAttributes.ISR ⊆ value ->
      forall callback arg mode,
        attachInterrupt callback arg mode s' =
          (Throw (mkAssertionFailed
                    "Pin has no ISR attribute, which means 'setAttr' was not set, or the pin doesn't support ISR's. Cannot bind ISR." []), s')
        /\ detachInterrupt s' =
          (Throw (mkAssertionFailed
                    "Pin has no ISR attribute, which means 'setAttr' was not set, or the pin doesn't support ISR's. Cannot unbind ISR." []), s')).
Proof.
  intros Hrun. rewrite (setAttr_returns _ _ _ _ _ Hrun).
  split; [reflexivity|]. split.
  - intros Hno high. apply has_false in Hno.
    rewrite write_cases. simpl. rewrite Hno. reflexivity.
  - intros Hno callback arg mode. apply has_false in Hno.
    rewrite attachInterrupt_cases, detachInterrupt_cases. simpl. rewrite Hno.
    split; reflexivity.
Qed.

Lemma setAttr_replaces_mode_witness :
  exists s',
    setAttr conflictsWith_spec PinAttributes.Input
      (mkState (mkGPIOPinDetail 13 (GetDefaultCapabilities 13)
                  PinAttributes.None PinAttributes.Output LOW) hw_empty) = (Ok tt, s')
    /\ write 1 s' =
         (Throw (mkAssertionFailed
                   "Pin has no output attribute defined. Cannot write to it." []), s').
Proof.
  set (p := mkGPIOPinDetail 13 _ _ _ _).
  destruct (setAttr conflictsWith_spec PinAttributes.Input (mkState p hw_empty))
    as [r s'] eqn:Hrun.
  assert (Hres : r = Ok tt).
  { apply (f_equal fst) in Hrun. vm_compute in Hrun. symmetry. exact Hrun. }
  subst r. exists s'. split; [reflexivity|].
  apply (proj1 (proj2 (setAttr_replaces_mode conflictsWith_spec p _ _ s' Hrun))).
  apply has_false. vm_compute. reflexivity.
Defined.

(** X15: after a returning [setAttr] whose request includes Output, [read]
    gives the logical initial level, 1 with InitialOn and 0 without, on
    active-low and active-high pins alike. *)
Theorem read_after_setAttr_output
    (conflictsWith : PinAttributes.t -> PinAttributes.t -> bool)
    (p : GPIOPinDetail) (h : Hardware) (value : PinAttributes.t) (s' : State) :
  reachable conflictsWith p ->
  PinAttributes.Output ⊆ value ->
  setAttr conflictsWith value (mkState p h) = (Ok tt, s') ->
  read s' =
    (Ok (if PinAttributes.has value PinAttributes.InitialOn then 1 else 0), s').
Proof.
  intros Hr Hout Hrun. rewrite (setAttr_returns _ _ _ _ _ Hrun).
  apply has_true in Hout. rewrite Hout.
  rewrite read_cases. unfold hw_digitalRead. simpl.
  rewrite lookup_insert_eq. simpl. unfold initial_level.
  destruct (well_formed_mask _ (reachable_well_formed _ _ Hr)) as [-> | ->];
    destruct (PinAttributes.has value PinAttributes.InitialOn); reflexivity.
Qed.

Lemma read_after_setAttr_output_witness :
  reachable conflictsWith_spec
    (mkGPIOPinDetail 26 (GetDefaultCapabilities 26)
       PinAttributes.ActiveLow PinAttributes.None HIGH)
  /\ exists s',
       setAttr conflictsWith_spec PinAttributes.Output
         (mkState (mkGPIOPinDetail 26 (GetDefaultCapabilities 26)
                     PinAttributes.ActiveLow PinAttributes.None HIGH) hw_empty)
         = (Ok tt, s')
       /\ read s' = (Ok 0, s').
Proof.
  set (p := mkGPIOPinDetail 26 _ _ _ _).
  assert (Hr : reachable conflictsWith_spec p).
  { apply (reachable_new conflictsWith_spec 26 ["low"] hw_empty p hw_empty).
    vm_compute. reflexivity. }
  split; [exact Hr|].
  destruct (setAttr conflictsWith_spec PinAttributes.Output (mkState p hw_empty))
    as [r s'] eqn:Hrun.
  assert (Hres : r = Ok tt).
  { apply (f_equal fst) in Hrun. vm_compute in Hrun. symmetry. exact Hrun. }
  subst r. exists s'. split; [reflexivity|].
  apply (read_after_setAttr_output conflictsWith_spec p hw_empty
           PinAttributes.Output s' Hr); [reflexivity | exact Hrun].
Defined.

(** ** Writing, reading and interrupts *)

(** X11: with Output in the current mode, a second [write] overrides the
    first: the hardware ends as if only the second had been made, and a
    [write] changes nothing but the level of its own pin. *)
Theorem write_last_wins
    (p : GPIOPinDetail) (h : Hardware) (v1 v2 : Z) :
  PinAttributes.has (_currentMode p) PinAttributes.Output = true ->
  exists s1 s2,
    write v1 (mkState p h) = (Ok tt, s1)
    /\ write v2 s1 = (Ok tt, s2)
    /\ write v2 (mkState p h) = (Ok tt, s2)
    /\ this s2 = p
    /\ modes (hw s2) = modes h
    /\ interrupts (hw s2) = interrupts h
    /\ forall pin, pin ≠ _index p -> levels (hw s2) !! pin = levels h !! pin.
Proof.
  intros Hout. eexists. eexists.
  split; [rewrite write_cases, Hout; reflexivity|].
  split; [rewrite write_cases; simpl; rewrite Hout; reflexivity|].
  split.
  - rewrite write_cases, Hout. unfold hw_digitalWrite. simpl.
    rewrite insert_insert_eq. reflexivity.
  - repeat split. intros pin Hne. simpl.
    rewrite !lookup_insert_ne by congruence. reflexivity.
Qed.

Lemma write_last_wins_witness :
  exists s1 s2,
    write 1 (mkState (mkGPIOPinDetail 12 (GetDefaultCapabilities 12)
                        PinAttributes.None PinAttributes.Output LOW) hw_empty)
      = (Ok tt, s1)
    /\ write 0 s1 = (Ok tt, s2)
    /\ levels (hw s2) !! 12 = Some LOW.
Proof.
  destruct (write_last_wins (mkGPIOPinDetail 12 (GetDefaultCapabilities 12)
                               PinAttributes.None PinAttributes.Output LOW)
              hw_empty 1 0 eq_refl) as (s1 & s2 & H1 & H2 & H3 & _).
  exists s1, s2. split; [exact H1|]. split; [exact H2|].
  rewrite write_cases in H3. simpl in H3. injection H3 as <-. reflexivity.
Defined.

(** X13: with ISR in the current mode, [detachInterrupt] after
    [attachInterrupt] leaves the pin without a binding and the bindings of
    all other pins as they were; when the pin had no binding before, the
    whole state is back to what it was.  A second [attachInterrupt]
    replaces the binding of the first. *)
Theorem attach_detach_roundtrip
    (p : GPIOPinDetail) (h : Hardware) (callback arg mode : Z) :
  PinAttributes.has (_currentMode p) PinAttributes.ISR = true ->
  (exists s1 s2,
      attachInterrupt callback arg mode (mkState p h) = (Ok tt, s1)
      /\ detachInterrupt s1 = (Ok tt, s2)
      /\ interrupts (hw s2) !! _index p = None
      /\ (forall pin, pin ≠ _index p ->
            interrupts (hw s2) !! pin = interrupts h !! pin)
      /\ (interrupts h !! _index p = None -> s2 = mkState p h))
  /\ (forall callback' arg' mode',
        exists s1 s2,
          attachInterrupt callback' arg' mode' (mkState p h) = (Ok tt, s1)
          /\ attachInterrupt callback arg mode s1 = (Ok tt, s2)
          /\ attachInterrupt callback arg mode (mkState p h) = (Ok tt, s2)
          /\ interrupts (hw s2) !! _index p = Some (callback, arg, mode)).
Proof.
  intros Hisr. split.
  - eexists. eexists.
    split; [rewrite attachInterrupt_cases, Hisr; reflexivity|].
    split; [rewrite detachInterrupt_cases; simpl; rewrite Hisr; reflexivity|].
    simpl. split; [apply lookup_delete_eq|]. split.
    + intros pin Hne.
      rewrite lookup_delete_ne, lookup_insert_ne by congruence. reflexivity.
    + intros Hnone. unfold hw_detachInterrupt, hw_attachInterruptArg. simpl.
      rewrite (delete_insert_id _ _ _ Hnone). destruct h; reflexivity.
  - intros callback' arg' mode'. eexists. eexists.
    split; [rewrite attachInterrupt_cases, Hisr; reflexivity|].
    split; [rewrite attachInterrupt_cases; simpl; rewrite Hisr; reflexivity|].
    split.
    + rewrite attachInterrupt_cases, Hisr.
      unfold hw_attachInterruptArg. simpl. rewrite insert_insert_eq. reflexivity.
    + simpl. apply lookup_insert_eq.
Qed.

Lemma attach_detach_roundtrip_witness :
  exists s1 s2,
    attachInterrupt 4096 0 2
      (mkState (mkGPIOPinDetail 4 (GetDefaultCapabilities 4)
                  PinAttributes.PullUp (PinAttributes.Input ∪ PinAttributes.ISR) LOW)
         hw_empty) = (Ok tt, s1)
    /\ detachInterrupt s1 = (Ok tt, s2)
    /\ s2 = mkState (mkGPIOPinDetail 4 (GetDefaultCapabilities 4)
                       PinAttributes.PullUp (PinAttributes.Input ∪ PinAttributes.ISR) LOW)
              hw_empty.
Proof.
  set (p := mkGPIOPinDetail 4 _ _ _ _).
  assert (Hisr : PinAttributes.has (_currentMode p) PinAttributes.ISR = true).
  { vm_compute. reflexivity. }
  destruct (proj1 (attach_detach_roundtrip p hw_empty 4096 0 2 Hisr))
    as (s1 & s2 & H1 & H2 & _ & _ & Hback).
  exists s1, s2. split; [exact H1|]. split; [exact H2|].
  apply Hback. reflexivity.
Defined.

(** X14: [read] asks for no attribute: on every pin object a program can
    hold, in any mode, it returns without changing anything.  For a line at
    LOW or HIGH it returns the level itself on a pin constructed without
    "low", and the opposite level on an active-low pin. *)
Theorem read_logical_level
    (conflictsWith : PinAttributes.t -> PinAttributes.t -> bool)
    (p : GPIOPinDetail) (h : Hardware) :
  reachable conflictsWith p ->
  exists v,
    read (mkState p h) = (Ok v, mkState p h)
    /\ (¬ PinAttributes.ActiveLow ⊆ _attributes p ->
        v = hw_digitalRead (_index p) h)
    /\ (PinAttributes.ActiveLow ⊆ _attributes p ->
        (hw_digitalRead (_index p) h = LOW -> v = HIGH)
        /\ (hw_digitalRead (_index p) h = HIGH -> v = LOW)).
Proof.
  intros Hr. destruct (reachable_well_formed _ _ Hr) as [_ Hmask].
  eexists. split; [apply read_cases|]. rewrite Hmask. split.
  - intros Hno. apply has_false in Hno. rewrite Hno. apply Z.lxor_0_r.
  - intros Hlow. apply has_true in Hlow. rewrite Hlow.
    split; intros ->; reflexivity.
Qed.

Lemma read_logical_level_witness :
  reachable conflictsWith_spec
    (mkGPIOPinDetail 15 (GetDefaultCapabilities 15)
       (PinAttributes.PullUp ∪ PinAttributes.ActiveLow) PinAttributes.None HIGH)
  /\ read (mkState (mkGPIOPinDetail 15 (GetDefaultCapabilities 15)
                      (PinAttributes.PullUp ∪ PinAttributes.ActiveLow)
                      PinAttributes.None HIGH) hw_empty) =
       (Ok HIGH, mkState (mkGPIOPinDetail 15 (GetDefaultCapabilities 15)
                            (PinAttributes.PullUp ∪ PinAttributes.ActiveLow)
                            PinAttributes.None HIGH) hw_empty).
Proof.
  set (p := mkGPIOPinDetail 15 _ _ _ _).
  assert (Hr : reachable conflictsWith_spec p).
  { apply (reachable_new conflictsWith_spec 15 ["pu"; "low"] hw_empty p hw_empty).
    vm_compute. reflexivity. }
  split; [exact Hr|].
  destruct (read_logical_level conflictsWith_spec p hw_empty Hr) as (v & Hrd & _ & Hlow).
  rewrite Hrd. f_equal. f_equal.
  apply Hlow; [apply has_true; vm_compute; reflexivity | reflexivity].
Defined.

(** ** Diagnostic names *)

(** X16: [toString] changes nothing and names the pin by its index alone:
    two pin objects get the same name exactly when they have the same
    index, whatever their attributes, modes and hardware. *)
Theorem toString_identifies_index (p p' : GPIOPinDetail) (h h' : Hardware) :
  snd (toString (mkState p h)) = mkState p h
  /\ (fst (toString (mkState p h)) = fst (toString (mkState p' h'))
      <-> _index p = _index p').
Proof.
  unfold toString, bind, self, ret. simpl. split; [reflexivity|]. split.
  - intros [= Heq]. apply (inj pretty), Heq.
  - intros ->. reflexivity.
Qed.

Lemma toString_identifies_index_witness :
  fst (toString (mkState (mkGPIOPinDetail 12 (GetDefaultCapabilities 12)
                            PinAttributes.None PinAttributes.None LOW) hw_empty)) =
    Ok "GPIO.12"
  /\ fst (toString (mkState (mkGPIOPinDetail 12 (GetDefaultCapabilities 12)
                               PinAttributes.None PinAttributes.None LOW) hw_empty)) =
     fst (toString (mkState (mkGPIOPinDetail 12 (GetDefaultCapabilities 12)
                               PinAttributes.ActiveLow PinAttributes.Output HIGH)
                      (hw_digitalWrite 12 HIGH hw_empty))).
Proof.
  split; [vm_compute; reflexivity|].
  apply (proj2 (toString_identifies_index _ _ _ _)). reflexivity.
Defined.

(** ** The capability table as a whole *)

Lemma iff_by_bool_decide (P Q : Prop) `{Decision P, Decision Q} :
  bool_decide P = bool_decide Q -> (P <-> Q).
Proof.
  intros Heq. rewrite <- (bool_decide_spec P), <- (bool_decide_spec Q), Heq.
  reflexivity.
Qed.

Lemma impl_by_bool_decide (P Q : Prop) `{Decision P, Decision Q} :
  implb (bool_decide P) (bool_decide Q) = true -> P -> Q.
Proof.
  intros Himp HP. apply (bool_decide_eq_true_2 P) in HP. rewrite HP in Himp.
  apply bool_decide_eq_true in Himp. exact Himp.
Qed.

(** Settle one row of the table by evaluation. *)
Ltac table_row :=
  repeat match goal with
         | |- _ /\ _ => split
         | |- _ <-> _ => apply (iff_by_bool_decide _ _); vm_compute; reflexivity
         | |- _ -> _ => apply (impl_by_bool_decide _ _); vm_compute; reflexivity
         | |- _ => apply (bool_decide_unpack _); vm_compute; exact I
         end.

(** X17: every index the capability table maps is Native and can serve as
    Input and UART; the only mapped indices without Output are 34, 35, 36
    and 39, and the only one without ISR is 1; PullUp and PullDown come
    together and only with Output, and DAC only with ADC. *)
Theorem capability_table_shape (index : Z) :
  mapped index = true ->
  {[FNative; FInput; FUART]} ⊆ GetDefaultCapabilities index
  /\ (FOutput ∉ GetDefaultCapabilities index <-> index ∈ [34; 35; 36; 39])
  /\ (FISR ∉ GetDefaultCapabilities index <-> index = 1)
  /\ (FPullUp ∈ GetDefaultCapabilities index <-> FPullDown ∈ GetDefaultCapabilities index)
  /\ (FPullUp ∈ GetDefaultCapabilities index -> FOutput ∈ GetDefaultCapabilities index)
  /\ (FDAC ∈ GetDefaultCapabilities index -> FADC ∈ GetDefaultCapabilities index).
Proof.
  unfold mapped. rewrite bool_decide_eq_true. unfold mapped_indices.
  rewrite !elem_of_cons, elem_of_nil. intros H.
  repeat (destruct H as [-> | H]; [table_row|]).
  destruct H.
Qed.

Lemma capability_table_shape_witness :
  mapped 35 = true
  /\ FOutput ∉ GetDefaultCapabilities 35.
Proof.
  split; [reflexivity|].
  apply (proj1 (proj2 (capability_table_shape 35 eq_refl))).
  rewrite !elem_of_cons. right. left. reflexivity.
Defined.

(** ** The pin assignments of [servo_axis.h] *)

(** X18: for either board version, the pins [servo_axis.h] assigns are all
    different, each is mapped by the capability table, and none is a
    console pin (1, 3) or an SPI-flash pin (6 to 11); the step, direction,
    disable, spindle and servo pins can be outputs, the spindle and servo
    pins can do PWM, the limit pins can be inputs, and the two servos use
    different channels. *)
Theorem servo_axis_pins_usable (v : servo_axis.BoardVersion) :
  NoDup (servo_axis.driven_pins ++ servo_axis.limit_pins v)
  /\ (forall pin, pin ∈ servo_axis.driven_pins ++ servo_axis.limit_pins v ->
        mapped pin = true /\ pin ∉ [1; 3; 6; 7; 8; 9; 10; 11])
  /\ (forall pin, pin ∈ servo_axis.driven_pins ->
        FOutput ∈ GetDefaultCapabilities pin)
  /\ (forall pin,
        pin ∈ [servo_axis.SPINDLE_PWM_PIN; servo_axis.SERVO_Y_PIN;
               servo_axis.SERVO_Z_PIN] ->
        FPWM ∈ GetDefaultCapabilities pin)
  /\ (forall pin, pin ∈ servo_axis.limit_pins v ->
        FInput ∈ GetDefaultCapabilities pin)
  /\ servo_axis.SERVO_Y_CHANNEL_NUM ≠ servo_axis.SERVO_Z_CHANNEL_NUM.
Proof.
  split; [destruct v; apply (bool_decide_unpack _); vm_compute; exact I|].
  split; [|split; [|split; [|split]]].
  - apply Forall_forall.
    destruct v; apply (bool_decide_unpack _); vm_compute; exact I.
  - apply Forall_forall. apply (bool_decide_unpack _); vm_compute; exact I.
  - apply Forall_forall. apply (bool_decide_unpack _); vm_compute; exact I.
  - apply Forall_forall.
    destruct v; apply (bool_decide_unpack _); vm_compute; exact I.
  - discriminate.
Qed.

Lemma servo_axis_pins_usable_witness :
  servo_axis.X_LIMIT_PIN servo_axis.board ∈ servo_axis.limit_pins servo_axis.board
  /\ FInput ∈ GetDefaultCapabilities (servo_axis.X_LIMIT_PIN servo_axis.board).
Proof.
  assert (Hin : servo_axis.X_LIMIT_PIN servo_axis.board
                  ∈ servo_axis.limit_pins servo_axis.board).
  { apply elem_of_cons. left. reflexivity. }
  split; [exact Hin|].
  apply (proj1 (proj2 (proj2 (proj2 (proj2
           (servo_axis_pins_usable servo_axis.board)))))), Hin.
Defined.

(** ** Pulls set by an option *)

(** X19: the constructor takes "pu" on any mapped index without consulting
    the capabilities, and every [setAttr] that returns on such a pin then
    sets the PULLUP bit of the mode, also on a pin whose capabilities have
    no PullUp, where [setAttr] refuses a request for PullUp itself. *)
Theorem option_pull_up_always_applied
    (conflictsWith : PinAttributes.t -> PinAttributes.t -> bool)
    (index : Z) (options : list string) (h h' h1 : Hardware)
    (p : GPIOPinDetail) (value : PinAttributes.t) (s' : State) :
  new_GPIOPinDetail index options h = (Ok p, h') ->
  "pu" ∈ options ->
  setAttr conflictsWith value (mkState p h1) = (Ok tt, s') ->
  (exists m, modes (hw s') !! index = Some m /\ Z.land m PULLUP = PULLUP)
  /\ (FPullUp ∉ GetDefaultCapabilities index -> index ≠ 1 -> index ≠ 3 ->
      forall request h2,
        PinAttributes.PullUp ⊆ request ->
        setAttr conflictsWith request (mkState p h2) =
          (Throw (mkAssertionFailed
                    "The requested attributes don't match the pin capabilities" []),
           mkState p h2)).
Proof.
  intros Hnew Hpu Hrun.
  assert (Hp : _index p = index
               /\ _capabilities p = GetDefaultCapabilities index
               /\ FPullUp ∈ _attributes p).
  { revert Hnew. rewrite new_GPIOPinDetail_spec.
    destruct (mapped index); [|discriminate].
    destruct (fold_tokens PinAttributes.None options) as [a|bad] eqn:Hfold;
      [|discriminate].
    intros [= <- _]. simpl. repeat split.
    apply (fold_tokens_flags _ _ _ Hfold). right. left. split; [reflexivity|exact Hpu]. }
  destruct Hp as (Hidx & Hcaps & Hattr). split.
  - rewrite (setAttr_returns _ _ _ _ _ Hrun), <- Hidx. simpl.
    eexists. split; [apply lookup_insert_eq|].
    assert (Hhas : PinAttributes.has (_attributes p) PinAttributes.PullUp = true).
    { apply has_true. unfold PinAttributes.PullUp.
      apply elem_of_subseteq_singleton, Hattr. }
    rewrite Hhas. simpl.
    destruct (PinAttributes.has value PinAttributes.Input),
      (PinAttributes.has value PinAttributes.Output); reflexivity.
  - intros Hno H1 H3 request h2 Hreq. apply setAttr_capability_fail.
    rewrite Hidx, (console_not_exempt _ _ H1 H3), Hcaps.
    apply validateWith_false. intros Hsub. apply Hno, Hsub.
    unfold PinAttributes.PullUp in Hreq.
    apply elem_of_subseteq_singleton, Hreq.
Qed.

Lemma option_pull_up_always_applied_witness :
  new_GPIOPinDetail 34 ["pu"] hw_empty =
    (Ok (mkGPIOPinDetail 34 (GetDefaultCapabilities 34)
           PinAttributes.PullUp PinAttributes.None LOW), hw_empty)
  /\ "pu" ∈ ["pu"]
  /\ (FPullUp ∉ GetDefaultCapabilities 34)
  /\ exists s' m,
       setAttr conflictsWith_spec PinAttributes.Input
         (mkState (mkGPIOPinDetail 34 (GetDefaultCapabilities 34)
                     PinAttributes.PullUp PinAttributes.None LOW) hw_empty)
         = (Ok tt, s')
       /\ modes (hw s') !! 34 = Some m
       /\ Z.land m PULLUP = PULLUP.
Proof.
  set (p := mkGPIOPinDetail 34 _ _ _ _).
  assert (Hnew : new_GPIOPinDetail 34 ["pu"] hw_empty = (Ok p, hw_empty)).
  { vm_compute. reflexivity. }
  assert (Hpu : "pu" ∈ ["pu"]) by (apply elem_of_cons; left; reflexivity).
  split; [exact Hnew|]. split; [exact Hpu|].
  split; [vm_compute; discriminate|].
  destruct (setAttr conflictsWith_spec PinAttributes.Input (mkState p hw_empty))
    as [r s'] eqn:Hrun.
  assert (Hres : r = Ok tt).
  { apply (f_equal fst) in Hrun. vm_compute in Hrun. symmetry. exact Hrun. }
  subst r.
  destruct (proj1 (option_pull_up_always_applied conflictsWith_spec 34 ["pu"]
                     hw_empty hw_empty hw_empty p PinAttributes.Input s'
                     Hnew Hpu Hrun)) as (m & Hm & Hbit).
  exists s', m. split; [reflexivity|]. split; assumption.
Defined.
